(** * Text-To-Dataset backend: job records, WebSocket fan-out, text processing

    A shallow embedding of the document-processing core of the backend:

    - [app/models/document.py]: the [ProcessingJob] and [Document] records
      and their state-changing methods;
    - [app/workers/tasks/document_tasks.py]: the job handling of the
      [process_document] task, and [batch_process_documents];
    - [app/workers/celery_app.py]: [BaseTask.on_failure];
    - [app/api/websocket/manager.py]: [ConnectionManager] and
      [WebSocketManager];
    - [app/services/processing/text_processor.py]: [TextProcessor].

    Python values are modelled as follows.  A [float] is an IEEE binary64
    number (Rocq's primitive floats).  A [str] is a [string]; a [dict] with
    string keys whose insertion order matters is an association list with
    unique keys; a [dict] used as a registry is a [gmap]; a [list] is a
    [list].  An object that is only compared by identity (a WebSocket) is a
    number.  A call that may raise returns an [outcome].  A reading of the
    clock ([datetime.utcnow()]) is an argument of the function that takes
    it.  What the libraries do (Starlette, [re], NLTK and the optional
    packages, the broker of Celery) is read from an environment. *)

From Stdlib Require Import Floats ZArith Lia Bool List Ascii String.
From stdpp Require Import gmap strings list fin_maps.
Import ListNotations.

Local Open Scope string_scope.
Local Open Scope Z_scope.
Set Warnings "-register-all,-inexact-float".

(** ** Exceptions *)

(** An exception object, of the class [Exception] or of a class derived
    from it: its class name and [str(e)]. *)
Record exn := Exn { exn_class : string; exn_str : string }.

Inductive outcome (A : Type) : Type :=
| Returned (a : A)
| Raised (e : exn).
Arguments Returned {A} a.
Arguments Raised {A} e.

Definition obind {A B} (m : outcome A) (k : A -> outcome B) : outcome B :=
  match m with
  | Returned a => k a
  | Raised e => Raised e
  end.

Notation "x <~ m ;; k" := (obind m (fun x => k))
  (at level 100, m at next level, right associativity).

(** [try: body  except Exception as e: handler(e)] *)
Definition try_except {A} (body : outcome A) (handler : exn -> outcome A)
  : outcome A :=
  match body with
  | Returned a => Returned a
  | Raised e => handler e
  end.

(** ** Python values *)

Inductive pyvalue : Type :=
| PNone
| PBool (b : bool)
| PInt (z : Z)
| PFloat (f : float)
| PStr (s : string)
| PList (l : list pyvalue)
| PDict (d : list (string * pyvalue)).

Definition dict := list (string * pyvalue).

(** [d.get(k)] *)
Fixpoint dict_get (d : dict) (k : string) : option pyvalue :=
  match d with
  | [] => None
  | (k', v) :: d' => if String.eqb k' k then Some v else dict_get d' k
  end.

(** [d.get(k, default)] *)
Definition dict_get_default (d : dict) (k : string) (default : pyvalue)
  : pyvalue :=
  match dict_get d k with
  | Some v => v
  | None => default
  end.

(** [d[k] = v]: an existing key keeps its place, a new key goes last. *)
Fixpoint dict_set (d : dict) (k : string) (v : pyvalue) : dict :=
  match d with
  | [] => [(k, v)]
  | (k', v') :: d' =>
      if String.eqb k' k then (k', v) :: d' else (k', v') :: dict_set d' k v
  end.

(** [d.update(e)] *)
Definition dict_update (d e : dict) : dict :=
  fold_left (fun acc kv => dict_set acc (fst kv) (snd kv)) e d.

Definition dict_keys (d : dict) : list string := map fst d.

(** Truth value of an object, as [if x:] and [not x] take it. *)
Definition truthy (v : pyvalue) : bool :=
  match v with
  | PNone => false
  | PBool b => b
  | PInt z => negb (z =? 0)
  | PFloat f => negb (PrimFloat.eqb f 0%float)
  | PStr s => negb (String.eqb s "")
  | PList l => match l with [] => false | _ => true end
  | PDict d => match d with [] => false | _ => true end
  end.

(** ** Floats: [max] and [min] of two arguments *)

(** [max(a, b)] keeps [a] unless [b > a]; [min(a, b)] keeps [a] unless
    [b < a].  With a NaN every comparison is false. *)
Definition py_max (a b : float) : float :=
  if PrimFloat.ltb a b then b else a.
Definition py_min (a b : float) : float :=
  if PrimFloat.ltb b a then b else a.

(** [min(max(percentage, 0.0), 100.0)], the value both [update_progress]
    methods store. *)
Definition clamp_percentage (percentage : float) : float :=
  py_min (py_max percentage 0%float) 100%float.

(** ** app/models/document.py *)

Definition datetime := Z.

Module DocumentStatus.
Definition UPLOADING := "uploading".
Definition UPLOADED := "uploaded".
Definition VALIDATING := "validating".
Definition PROCESSING := "processing".
Definition COMPLETED := "completed".
Definition FAILED := "failed".
Definition CANCELLED := "cancelled".
End DocumentStatus.

Module ProcessingStage.
Definition VALIDATION := "validation".
Definition EXTRACTION := "extraction".
Definition NLP_ANALYSIS := "nlp_analysis".
Definition COMPLETED := "completed".
End ProcessingStage.

Module JobStatus.
Definition QUEUED := "queued".
Definition RUNNING := "running".
Definition COMPLETED := "completed".
Definition FAILED := "failed".
Definition CANCELLED := "cancelled".
Definition RETRY := "retry".

(** [JobStatus.<name>], the attribute read on the enumeration class: the
    value of a declared member, and [AttributeError] for any other name
    ([str(e)] is the name). *)
Definition member (name : string) : outcome string :=
  if String.eqb name "QUEUED" then Returned QUEUED
  else if String.eqb name "RUNNING" then Returned RUNNING
  else if String.eqb name "COMPLETED" then Returned COMPLETED
  else if String.eqb name "FAILED" then Returned FAILED
  else if String.eqb name "CANCELLED" then Returned CANCELLED
  else if String.eqb name "RETRY" then Returned RETRY
  else Raised (Exn "AttributeError" name).
End JobStatus.

(** The columns of [Document] that its methods read or write. *)
Module Document.

Record t := mk {
  status : string;
  current_stage : string;
  progress_percentage : float;
  processing_started_at : option datetime;
  processing_completed_at : option datetime;
  error_message : option string;
  retry_count : Z
}.

Definition update_progress (stage : string) (percentage : float) (d : t) : t :=
  mk (status d) stage (clamp_percentage percentage)
     (processing_started_at d) (processing_completed_at d)
     (error_message d) (retry_count d).

Definition mark_processing_started (now : datetime) (d : t) : t :=
  mk DocumentStatus.PROCESSING (current_stage d) (progress_percentage d)
     (Some now) (processing_completed_at d) (error_message d)
     (retry_count d).

Definition mark_processing_completed (now : datetime) (d : t) : t :=
  mk DocumentStatus.COMPLETED (current_stage d) 100%float
     (processing_started_at d) (Some now) (error_message d)
     (retry_count d).

Definition mark_processing_failed (now : datetime) (msg : string) (d : t) : t :=
  mk DocumentStatus.FAILED (current_stage d) (progress_percentage d)
     (processing_started_at d) (Some now) (Some msg) (retry_count d).

End Document.

(** The columns of [ProcessingJob] that its methods read or write. *)
Module ProcessingJob.

Record t := mk {
  status : string;
  current_stage : option string;
  progress_percentage : float;
  started_at : option datetime;
  completed_at : option datetime;
  worker_id : option string;
  output_s3_key : option string;
  error_message : option string;
  error_code : option string;
  retry_count : Z;
  max_retries : Z
}.

(** A row as the column defaults make it. *)
Definition new : t :=
  mk JobStatus.QUEUED None 0%float None None None None None None 0 3.

Definition is_completed (j : t) : bool :=
  String.eqb (status j) JobStatus.COMPLETED.
Definition is_running (j : t) : bool :=
  String.eqb (status j) JobStatus.RUNNING.

Definition start_processing (worker : option string) (now : datetime)
    (j : t) : t :=
  mk JobStatus.RUNNING (current_stage j) (progress_percentage j)
     (Some now) (completed_at j) worker (output_s3_key j)
     (error_message j) (error_code j) (retry_count j) (max_retries j).

(** [if output_s3_key:] holds for a non-empty string only. *)
Definition complete_processing (key : option string) (now : datetime)
    (j : t) : t :=
  mk JobStatus.COMPLETED (current_stage j) 100%float
     (started_at j) (Some now) (worker_id j)
     (match key with
      | Some k => if String.eqb k "" then output_s3_key j else Some k
      | None => output_s3_key j
      end)
     (error_message j) (error_code j) (retry_count j) (max_retries j).

Definition fail_processing (msg : string) (code : option string)
    (now : datetime) (j : t) : t :=
  mk JobStatus.FAILED (current_stage j) (progress_percentage j)
     (started_at j) (Some now) (worker_id j) (output_s3_key j)
     (Some msg) code (retry_count j) (max_retries j).

Definition update_progress (stage : string) (percentage : float) (j : t) : t :=
  mk (status j) (Some stage)
     (clamp_percentage percentage)
     (started_at j) (completed_at j) (worker_id j) (output_s3_key j)
     (error_message j) (error_code j) (retry_count j) (max_retries j).

(** Plain attribute assignments, [job.status = s] and the like. *)
Definition set_status (s : string) (j : t) : t :=
  mk s (current_stage j) (progress_percentage j) (started_at j)
     (completed_at j) (worker_id j) (output_s3_key j) (error_message j)
     (error_code j) (retry_count j) (max_retries j).
Definition set_started_at (now : datetime) (j : t) : t :=
  mk (status j) (current_stage j) (progress_percentage j) (Some now)
     (completed_at j) (worker_id j) (output_s3_key j) (error_message j)
     (error_code j) (retry_count j) (max_retries j).
Definition set_completed_at (now : datetime) (j : t) : t :=
  mk (status j) (current_stage j) (progress_percentage j) (started_at j)
     (Some now) (worker_id j) (output_s3_key j) (error_message j)
     (error_code j) (retry_count j) (max_retries j).
Definition set_error_message (msg : string) (j : t) : t :=
  mk (status j) (current_stage j) (progress_percentage j) (started_at j)
     (completed_at j) (worker_id j) (output_s3_key j) (Some msg)
     (error_code j) (retry_count j) (max_retries j).

End ProcessingJob.

(** ** app/workers/tasks/document_tasks.py: the job in [process_document] *)

(** The job object of one run of the task: the row loaded from the table
    and the attribute [progress] that the handler reads.  [progress] is no
    column of [ProcessingJob], so an object that was just loaded does not
    have it. *)
Record job_object := JobObject {
  row : ProcessingJob.t;
  progress : option float
}.

Definition loaded (r : ProcessingJob.t) : job_object := JobObject r None.

(** Lines 54-55: [job.status = JobStatus.IN_PROGRESS],
    [job.started_at = datetime.utcnow()].  The right-hand side of line 54
    is evaluated before anything is assigned; the enumeration declares no
    member of that name. *)
Definition process_document_claim (now : datetime) (j : job_object)
  : outcome job_object :=
  s <~ JobStatus.member "IN_PROGRESS" ;;
  Returned
    (JobObject
       (ProcessingJob.set_started_at now (ProcessingJob.set_status s (row j)))
       (progress j)).

(** Lines 154-156, the handler of [except Exception as e]. *)
Definition process_document_fail (now : datetime) (e : exn)
    (j : job_object) : job_object :=
  JobObject
    (ProcessingJob.set_completed_at now
       (ProcessingJob.set_error_message (exn_str e)
          (ProcessingJob.set_status JobStatus.FAILED (row j))))
    (progress j).

(** One run of the task on the table of jobs.  The [try] block looks the
    job up (lines 50-52), claims it (lines 54-55) and commits (line 56);
    then come the download, the text extraction, [process_text] and the
    update of the document (lines 58-121).  Line 120 assigns to
    [document.is_processed], a property without a setter, so these lines
    never return: [pipeline] is the exception they end in, and the
    statements after them (lines 124-147) are not reached.  The handler
    marks the job Failed, commits, and reads [job.progress] for its update;
    on an object without that attribute the read raises in place of [e].
    [db.commit()] writes the row of the job object to the table.  The
    calls of [websocket_manager.send_processing_update] build a coroutine
    that the task, a plain function, never awaits: they send nothing.

    The result is the table, the job object as the run leaves it, and what
    the task raises. *)
Definition process_document (db : gmap string ProcessingJob.t)
    (job_id document_id user_id : string) (pipeline : exn)
    (t_start t_fail : datetime)
  : gmap string ProcessingJob.t * option job_object * outcome pyvalue :=
  match db !! job_id with
  | None =>
      (db, None,
       Raised (Exn "ValueError" ("Job " ++ job_id ++ " not found")))
  | Some r =>
      let job := loaded r in
      let '(db1, job1, e) :=
        match process_document_claim t_start job with
        | Returned job1 => (<[job_id := row job1]> db, job1, pipeline)
        | Raised e => (db, job, e)
        end in
      let job2 := process_document_fail t_fail e job1 in
      (<[job_id := row job2]> db1, Some job2,
       match progress job2 with
       | Some _ => Raised e
       | None =>
           Raised (Exn "AttributeError"
             "'ProcessingJob' object has no attribute 'progress'")
       end)
  end.

(** What can happen to a row: the methods of the model, and the
    assignments that the tasks are written with, each taken alone
    ([job.status], lines 54, 124 and 154 of document_tasks.py and line 184
    of celery_app.py; [job.started_at], line 55; [job.completed_at], lines
    125 and 156; [job.error_message], line 155 and line 185 of
    celery_app.py, in [BaseTask.on_failure]). *)
Inductive job_step : ProcessingJob.t -> ProcessingJob.t -> Prop :=
| step_start_processing w now j :
    job_step j (ProcessingJob.start_processing w now j)
| step_complete_processing k now j :
    job_step j (ProcessingJob.complete_processing k now j)
| step_fail_processing msg code now j :
    job_step j (ProcessingJob.fail_processing msg code now j)
| step_update_progress stage p j :
    job_step j (ProcessingJob.update_progress stage p j)
| step_assign_status s j :
    job_step j (ProcessingJob.set_status s j)
| step_assign_started_at now j :
    job_step j (ProcessingJob.set_started_at now j)
| step_assign_completed_at now j :
    job_step j (ProcessingJob.set_completed_at now j)
| step_assign_error_message msg j :
    job_step j (ProcessingJob.set_error_message msg j).


(** ** app/api/websocket/manager.py *)

(** A WebSocket object, known by its identity. *)
Definition WebSocket := nat.

Inductive WebSocketState := CONNECTING | CONNECTED | DISCONNECTED | RESPONSE.

Definition is_connected (s : WebSocketState) : bool :=
  match s with CONNECTED => true | _ => false end.

(** The WebSocket class is Starlette's, not this repository's.  What a
    connection answers during one operation is read from a [Transport]:
    its [application_state], and whether [accept()] and [send_text(message)]
    return ([None]) or raise.  A message is kept as the value handed to
    [json.dumps]. *)
Record Transport := {
  application_state : WebSocket -> WebSocketState;
  accept : WebSocket -> option exn;
  send_text : WebSocket -> pyvalue -> option exn
}.

(** What was sent, in order: the connection and the message. *)
Definition deliveries := list (WebSocket * pyvalue).

(** [l.remove(x)] for an [x] that may be absent: the first occurrence goes. *)
Fixpoint remove_first (x : WebSocket) (l : list WebSocket) : list WebSocket :=
  match l with
  | [] => []
  | y :: l' => if Nat.eqb y x then l' else y :: remove_first x l'
  end.

Module ConnectionManager.

Record t := mk {
  active_connections : list WebSocket;
  metadata : gmap WebSocket dict
}.

Definition init : t := mk [] ∅.

(** [if metadata:] holds for a non-empty dictionary only. *)
Definition connect (tr : Transport) (websocket : WebSocket)
    (md : option dict) (cm : t) : t * outcome unit :=
  match accept tr websocket with
  | Some e => (cm, Raised e)
  | None =>
      (mk ((active_connections cm ++ [websocket])%list)
          (match md with
           | Some (kv :: d) => <[websocket := kv :: d]> (metadata cm)
           | _ => metadata cm
           end),
       Returned tt)
  end.

Definition disconnect (websocket : WebSocket) (cm : t) : t :=
  mk (remove_first websocket (active_connections cm))
     (delete websocket (metadata cm)).

(** One attempt of the loop body of [broadcast]: [true] when the message
    went out, [false] when the connection goes to [disconnected]. *)
Definition send_succeeds (tr : Transport) (message : pyvalue)
    (connection : WebSocket) : bool :=
  if is_connected (application_state tr connection)
  then match send_text tr connection message with
       | None => true
       | Some _ => false
       end
  else false.

(** The loop of [broadcast]: the messages sent and the list
    [disconnected]. *)
Fixpoint broadcast_loop (tr : Transport) (message : pyvalue)
    (connections : list WebSocket) : deliveries * list WebSocket :=
  match connections with
  | [] => ([], [])
  | connection :: rest =>
      let '(sent, disconnected) := broadcast_loop tr message rest in
      if send_succeeds tr message connection
      then ((connection, message) :: sent, disconnected)
      else (sent, connection :: disconnected)
  end.

Definition broadcast (tr : Transport) (message : pyvalue) (cm : t)
  : t * deliveries :=
  let '(sent, disconnected) :=
    broadcast_loop tr message (active_connections cm) in
  (fold_left (fun acc connection => disconnect connection acc)
     disconnected cm,
   sent).

Definition send_personal_message (tr : Transport) (message : pyvalue)
    (websocket : WebSocket) (cm : t) : t * deliveries :=
  if is_connected (application_state tr websocket)
  then match send_text tr websocket message with
       | None => (cm, [(websocket, message)])
       | Some _ => (disconnect websocket cm, [])
       end
  else (cm, []).

End ConnectionManager.

Module WebSocketManager.

Record t := mk {
  user_connections : gmap string ConnectionManager.t;
  room_connections : gmap string ConnectionManager.t;
  job_connections : gmap string ConnectionManager.t;
  chat_connections : gmap string ConnectionManager.t;
  connection_users : gmap WebSocket string;
  heartbeat_tasks : gset WebSocket
}.

Definition init : t := mk ∅ ∅ ∅ ∅ ∅ ∅.

Definition set_user_connections (u : gmap string ConnectionManager.t)
    (m : t) : t :=
  mk u (room_connections m) (job_connections m) (chat_connections m)
     (connection_users m) (heartbeat_tasks m).
Definition set_room_connections (r : gmap string ConnectionManager.t)
    (m : t) : t :=
  mk (user_connections m) r (job_connections m) (chat_connections m)
     (connection_users m) (heartbeat_tasks m).
Definition set_job_connections (j : gmap string ConnectionManager.t)
    (m : t) : t :=
  mk (user_connections m) (room_connections m) j (chat_connections m)
     (connection_users m) (heartbeat_tasks m).
Definition set_chat_connections (c : gmap string ConnectionManager.t)
    (m : t) : t :=
  mk (user_connections m) (room_connections m) (job_connections m) c
     (connection_users m) (heartbeat_tasks m).
Definition set_connection_users (cu : gmap WebSocket string) (m : t) : t :=
  mk (user_connections m) (room_connections m) (job_connections m)
     (chat_connections m) cu (heartbeat_tasks m).
Definition set_heartbeat_tasks (h : gset WebSocket) (m : t) : t :=
  mk (user_connections m) (room_connections m) (job_connections m)
     (chat_connections m) (connection_users m) h.

(** [if key not in registry: registry[key] = ConnectionManager()], then
    [await registry[key].connect(websocket, md)].  When [accept] raises,
    a manager made for a new key stays in the registry, empty. *)
Definition connect_in (tr : Transport) (websocket : WebSocket)
    (md : option dict) (key : string)
    (registry : gmap string ConnectionManager.t)
  : gmap string ConnectionManager.t * outcome unit :=
  let cm :=
    match registry !! key with
    | Some cm => cm
    | None => ConnectionManager.init
    end in
  let '(cm', r) := ConnectionManager.connect tr websocket md cm in
  (<[key := cm']> registry, r).

(** [if key in registry: await registry[key].broadcast(message)] *)
Definition broadcast_in (tr : Transport) (message : pyvalue) (key : string)
    (registry : gmap string ConnectionManager.t)
  : gmap string ConnectionManager.t * deliveries :=
  match registry !! key with
  | Some cm =>
      let '(cm', sent) := ConnectionManager.broadcast tr message cm in
      (<[key := cm']> registry, sent)
  | None => (registry, [])
  end.

Definition send_to_user (tr : Transport) (user_id : string) (data : pyvalue)
    (m : t) : t * deliveries :=
  let '(u, sent) := broadcast_in tr data user_id (user_connections m) in
  (set_user_connections u m, sent).

(** The heartbeat task of the connection is recorded; its periodic sends
    are not part of the call. *)
Definition connect_user (tr : Transport) (websocket : WebSocket)
    (user_id : string) (md : option dict) (now : string) (m : t)
  : t * deliveries * outcome unit :=
  let '(u, r) := connect_in tr websocket md user_id (user_connections m) in
  let m1 := set_user_connections u m in
  match r with
  | Raised e => (m1, [], Raised e)
  | Returned _ =>
      let m2 :=
        set_connection_users (<[websocket := user_id]> (connection_users m1))
          m1 in
      let m3 := set_heartbeat_tasks ({[websocket]} ∪ heartbeat_tasks m2) m2 in
      let '(m4, sent) :=
        send_to_user tr user_id
          (PDict [("type", PStr "connection");
                  ("status", PStr "connected");
                  ("timestamp", PStr now)]) m3 in
      (m4, sent, Returned tt)
  end.

(** [registry[key].disconnect(websocket)]; the entry goes when no
    connection is left. *)
Definition disconnect_in (websocket : WebSocket) (key : string)
    (registry : gmap string ConnectionManager.t)
  : gmap string ConnectionManager.t :=
  match registry !! key with
  | Some cm =>
      let cm' := ConnectionManager.disconnect websocket cm in
      match ConnectionManager.active_connections cm' with
      | [] => delete key registry
      | _ => <[key := cm']> registry
      end
  | None => registry
  end.

Definition disconnect_user (websocket : WebSocket) (m : t) : t :=
  match connection_users m !! websocket with
  | Some user_id =>
      let m1 := set_heartbeat_tasks (heartbeat_tasks m ∖ {[websocket]}) m in
      let m2 :=
        set_user_connections
          (disconnect_in websocket user_id (user_connections m1)) m1 in
      set_connection_users (delete websocket (connection_users m2)) m2
  | None => m
  end.

Definition subscribe_to_job (tr : Transport) (websocket : WebSocket)
    (job_id : string) (m : t) : t * outcome unit :=
  let '(j, r) := connect_in tr websocket None job_id (job_connections m) in
  (set_job_connections j m, r).

Definition send_job_update (tr : Transport) (job_id : string)
    (data : pyvalue) (now : string) (m : t) : t * deliveries :=
  let '(j, sent) :=
    broadcast_in tr
      (PDict [("type", PStr "job_update");
              ("job_id", PStr job_id);
              ("data", data);
              ("timestamp", PStr now)])
      job_id (job_connections m) in
  (set_job_connections j m, sent).

Definition subscribe_to_chat (tr : Transport) (websocket : WebSocket)
    (session_id : string) (m : t) : t * outcome unit :=
  let '(c, r) :=
    connect_in tr websocket None session_id (chat_connections m) in
  (set_chat_connections c m, r).

Definition join_room (tr : Transport) (websocket : WebSocket)
    (room_id : string) (m : t) : t * outcome unit :=
  let '(r, res) :=
    connect_in tr websocket None room_id (room_connections m) in
  (set_room_connections r m, res).

Definition leave_room (websocket : WebSocket) (room_id : string) (m : t)
  : t :=
  set_room_connections
    (disconnect_in websocket room_id (room_connections m)) m.

Definition send_to_room (tr : Transport) (room_id : string) (data : pyvalue)
    (m : t) : t * deliveries :=
  let '(r, sent) := broadcast_in tr data room_id (room_connections m) in
  (set_room_connections r m, sent).

Definition opt_str (s : option string) : pyvalue :=
  match s with Some x => PStr x | None => PNone end.

(** The dictionary [update_data] of [send_processing_update]. *)
Definition update_data (job_id status : string) (progress : float)
    (message : option string) (now : string) : dict :=
  [("type", PStr "processing_update");
   ("job_id", PStr job_id);
   ("status", PStr status);
   ("progress", PFloat progress);
   ("message", opt_str message);
   ("timestamp", PStr now)].

(** [now_user] and [now_job]: the clock is read once for [update_data]
    and once more in [send_job_update]. *)
Definition send_processing_update (tr : Transport)
    (user_id job_id status : string) (progress : float)
    (message : option string) (now_user now_job : string) (m : t)
  : t * deliveries :=
  let '(m1, sent_user) :=
    send_to_user tr user_id
      (PDict (update_data job_id status progress message now_user)) m in
  let '(m2, sent_job) :=
    send_job_update tr job_id
      (PDict [("status", PStr status);
              ("progress", PFloat progress);
              ("message", opt_str message)])
      now_job m1 in
  (m2, (sent_user ++ sent_job)%list).

(** [for user_id in user_ids: if user_id in self.user_connections:
    broadcast]: one [send_to_user] after the other. *)
Fixpoint send_to_users (tr : Transport) (user_ids : list string)
    (data : pyvalue) (m : t) : t * deliveries :=
  match user_ids with
  | [] => (m, [])
  | user_id :: rest =>
      let '(m1, sent) := send_to_user tr user_id data m in
      let '(m2, sent_rest) := send_to_users tr rest data m1 in
      (m2, (sent ++ sent_rest)%list)
  end.

Definition is_user_connected (user_id : string) (m : t) : bool :=
  match user_connections m !! user_id with
  | Some cm =>
      (0 <? length (ConnectionManager.active_connections cm))%nat
  | None => false
  end.

(** The entry [total_users] of [get_connection_stats]. *)
Definition total_users (m : t) : nat := size (user_connections m).

(** The message that [connect_user] sends once the connection is
    stored. *)
Definition connection_message (now : string) : pyvalue :=
  PDict [("type", PStr "connection");
         ("status", PStr "connected");
         ("timestamp", PStr now)].

End WebSocketManager.

(** ** Strings *)

(** A [str] is a sequence of characters; a character is a code point
    below 256 (ASCII and the Latin-1 supplement), numbered as [ascii]
    numbers it.  The three classifications below are those of Python's
    character database on that range. *)

Definition py_len (s : string) : Z := Z.of_nat (String.length s).

(** White space, as [str.isspace], [str.strip] and [str.split] take it:
    the controls 9-13 and 28-31, the space, the next-line control 133 and
    the no-break space 160. *)
Definition is_space (c : ascii) : bool :=
  let n := nat_of_ascii c in
  ((9 <=? n)%nat && (n <=? 13)%nat) || ((28 <=? n)%nat && (n <=? 32)%nat)
  || (n =? 133)%nat || (n =? 160)%nat.

(** A letter, as [str.isalpha] takes it: A-Z, a-z, the ordinal indicators
    170 and 186, the micro sign 181, and the accented letters 192-255
    without the signs 215 and 247. *)
Definition is_letter (c : ascii) : bool :=
  let n := nat_of_ascii c in
  ((65 <=? n)%nat && (n <=? 90)%nat) || ((97 <=? n)%nat && (n <=? 122)%nat)
  || (n =? 170)%nat || (n =? 181)%nat || (n =? 186)%nat
  || ((192 <=? n)%nat && (n <=? 214)%nat)
  || ((216 <=? n)%nat && (n <=? 246)%nat)
  || ((248 <=? n)%nat && (n <=? 255)%nat).

(** The lower-case character: the capitals A-Z and 192-222 (without the
    sign 215) have theirs 32 places on, every other character is its
    own. *)
Definition lower_char (c : ascii) : ascii :=
  let n := nat_of_ascii c in
  if ((65 <=? n)%nat && (n <=? 90)%nat)
     || ((192 <=? n)%nat && (n <=? 214)%nat)
     || ((216 <=? n)%nat && (n <=? 222)%nat)
  then ascii_of_nat (n + 32) else c.

(** [s.lower()] *)
Fixpoint lower (s : string) : string :=
  match s with
  | EmptyString => EmptyString
  | String c s' => String (lower_char c) (lower s')
  end.

(** [s.isalpha()]: at least one character, and letters only. *)
Fixpoint all_letters (s : string) : bool :=
  match s with
  | EmptyString => true
  | String c s' => is_letter c && all_letters s'
  end.
Definition isalpha (s : string) : bool :=
  match s with
  | EmptyString => false
  | _ => all_letters s
  end.

Fixpoint lstrip (s : string) : string :=
  match s with
  | EmptyString => EmptyString
  | String c s' => if is_space c then lstrip s' else s
  end.

(** Drops the white space at the end. *)
Fixpoint rstrip (s : string) : string :=
  match s with
  | EmptyString => EmptyString
  | String c s' =>
      match rstrip s' with
      | EmptyString => if is_space c then EmptyString else String c EmptyString
      | r => String c r
      end
  end.

(** [s.strip()] *)
Definition strip (s : string) : string := rstrip (lstrip s).

(** [s.split()]: the runs of characters between white space.  [word] holds
    the characters of the run being read, last one first. *)
Fixpoint split_from (word : list ascii) (s : string) : list string :=
  let flush (rest : list string) :=
    match word with
    | [] => rest
    | _ => string_of_list_ascii (rev word) :: rest
    end in
  match s with
  | EmptyString => flush []
  | String c s' =>
      if is_space c then flush (split_from [] s')
      else split_from (c :: word) s'
  end.
Definition py_split (s : string) : list string := split_from [] s.

(** [sep.join(l)] *)
Definition join (sep : string) (l : list string) : string :=
  String.concat sep l.

(** [s.count(sub)] for a non-empty [sub]: the occurrences of [sub] met from
    left to right, none overlapping the one before.  [skip] counts the
    characters still covered by the last occurrence. *)
Fixpoint count_from (sub : string) (skip : nat) (s : string) : Z :=
  match s with
  | EmptyString => 0
  | String _ s' =>
      match skip with
      | S k => count_from sub k s'
      | O =>
          if String.prefix sub s
          then 1 + count_from sub (String.length sub - 1) s'
          else count_from sub 0 s'
      end
  end.
Definition str_count (s sub : string) : Z := count_from sub 0 s.

(** [l[:n]] for an integer [n]. *)
Definition slice_to {A} (n : Z) (l : list A) : list A :=
  if n <? 0 then firstn (Z.to_nat (Z.of_nat (length l) + n)) l
  else firstn (Z.to_nat n) l.

(** [s[:n]] for an integer [n]. *)
Definition str_slice_to (n : Z) (s : string) : string :=
  string_of_list_ascii (slice_to n (list_ascii_of_string s)).

(** ** Numbers *)

(** The float of an integer; exact below [2^53], which the lengths and
    counts of this file are. *)
Definition float_of_Z (z : Z) : float :=
  if z <? 0 then PrimFloat.opp (PrimFloat.of_uint63 (Uint63.of_Z (- z)))
  else PrimFloat.of_uint63 (Uint63.of_Z z).

(** [a / b] on integers, for [b] other than zero. *)
Definition truediv (a b : Z) : pyvalue :=
  PFloat (PrimFloat.div (float_of_Z a) (float_of_Z b)).

Definition type_error (msg : string) : exn := Exn "TypeError" msg.

(** [type(v).__name__] *)
Definition type_name (v : pyvalue) : string :=
  match v with
  | PNone => "NoneType"
  | PBool _ => "bool"
  | PInt _ => "int"
  | PFloat _ => "float"
  | PStr _ => "str"
  | PList _ => "list"
  | PDict _ => "dict"
  end.

(** The [TypeError] of a comparison [n op v] of an integer with an object
    that has no order against it. *)
Definition not_supported (op : string) (v : pyvalue) : exn :=
  type_error ("'" ++ op ++ "' not supported between instances of 'int' and '"
              ++ type_name v ++ "'").

(** [n <= v] and [n > v] for an integer [n]: an order exists against
    numbers only. *)
Definition int_le (n : Z) (v : pyvalue) : outcome bool :=
  match v with
  | PInt m => Returned (n <=? m)
  | PBool b => Returned (n <=? (if b then 1 else 0))
  | PFloat f => Returned (PrimFloat.leb (float_of_Z n) f)
  | _ => Raised (not_supported "<=" v)
  end.
Definition int_gt (n : Z) (v : pyvalue) : outcome bool :=
  match v with
  | PInt m => Returned (m <? n)
  | PBool b => Returned ((if b then 1 else 0) <? n)
  | PFloat f => Returned (PrimFloat.ltb f (float_of_Z n))
  | _ => Raised (not_supported ">" v)
  end.

(** The integer a slice bound stands for: [None] is no bound, a number
    that is no integer is refused. *)
Definition slice_bound (v : pyvalue) : outcome (option Z) :=
  match v with
  | PNone => Returned None
  | PInt n => Returned (Some n)
  | PBool b => Returned (Some (if b then 1 else 0))
  | _ =>
      Raised (type_error
        "slice indices must be integers or None or have an __index__ method")
  end.

(** ** app/services/processing/text_processor.py *)

Module TextProcessor.

(** A chunk of [ne_chunk]: a subtree with a label, or a tagged token. *)
Inductive chunk :=
| Subtree (label : string) (leaves : list (string * string))
| Leaf (token pos : string).

(** An entity of a spaCy document, [score] being the attribute that
    [getattr(ent, 'score', 1.0)] looks for. *)
Record span := {
  span_text : string;
  label_ : string;
  start_char : Z;
  end_char : Z;
  span_score : option pyvalue
}.

(** An item of the result of [extract_keywords]. *)
Record keyword_item := {
  keyword : string;
  score : pyvalue;
  weight : pyvalue
}.

(** The libraries behind the processor: [re], NLTK, and the optional
    spaCy, textstat and scikit-learn ([None] when the import failed or the
    model is missing).  [tfidf sentences num_keywords] stands for lines
    305-330 of [extract_keywords]: the vectorizer and the ranking of its
    features.  [classify_untyped] is what [classify_text] does with a
    [categories] value that is neither empty nor a list of strings, which
    its signature excludes. *)
Record Libs := {
  re_sub : string -> string -> string -> string;
  sent_tokenize : string -> outcome (list string);
  word_tokenize : string -> outcome (list string);
  stop_words : list string;
  lemmatize : string -> outcome string;
  pos_tag : list string -> outcome (list (string * string));
  ne_chunk : list (string * string) -> outcome (list chunk);
  nlp_model : option (string -> outcome (list span));
  flesch :
    option ((string -> outcome float) * (string -> outcome float));
  tfidf : option (list string -> pyvalue -> outcome (list keyword_item));
  classify_untyped : string -> pyvalue -> outcome dict
}.

Definition pat_whitespace : string := "\s+".
Definition pat_special : string :=
  "[^\w\s\.,!?;:\'" ++ String "034"%char "()-]".
Definition pat_url : string :=
  "http[s]?://(?:[a-zA-Z]|[0-9]|[$-_@.&+]|[!*\\(\\),]|(?:%[0-9a-fA-F][0-9a-fA-F]))+".
Definition pat_email : string :=
  "\b[A-Za-z0-9._%+-]+@[A-Za-z0-9.-]+\.[A-Z|a-z]{2,}\b".

Definition clean_text (L : Libs) (text : string) : string :=
  let text := strip (re_sub L pat_whitespace " " text) in
  let text := re_sub L pat_special "" text in
  let text := re_sub L pat_url "" text in
  re_sub L pat_email "" text.

Definition nonempty (s : string) : bool := negb (String.eqb s "").

Definition extract_sentences (L : Libs) (text : string)
  : outcome (list string) :=
  sentences <~ sent_tokenize L text ;;
  Returned
    (map strip (List.filter (fun s => nonempty (strip s)) sentences)).

Definition mem (x : string) (l : list string) : bool :=
  existsb (String.eqb x) l.

Fixpoint lemmatize_all (L : Libs) (tokens : list string)
  : outcome (list string) :=
  match tokens with
  | [] => Returned []
  | token :: rest =>
      t <~ lemmatize L token ;;
      ts <~ lemmatize_all L rest ;;
      Returned (t :: ts)
  end.

Definition tokenize_text (L : Libs) (text : string)
  : outcome (list string) :=
  tokens <~ word_tokenize L (lower text) ;;
  lemmatize_all L
    (List.filter
       (fun token => isalpha token && negb (mem token (stop_words L)))
       tokens).

Definition len {A} (l : list A) : Z := Z.of_nat (length l).

(** [sum(len(s.split()) for s in sentences)] *)
Definition split_total (sentences : list string) : Z :=
  fold_left (fun acc s => acc + len (py_split s)) sentences 0.

(** The body of [try] is cut where a call raises; [metrics] is returned
    as it stands then. *)
Definition calculate_readability (L : Libs) (text : string) : dict :=
  let '(metrics, go_on) :=
    match flesch L with
    | None => ([], true)
    | Some (flesch_reading_ease, flesch_kincaid_grade) =>
        match flesch_reading_ease text with
        | Raised _ => ([], false)
        | Returned ease =>
            let metrics := dict_set [] "flesch_reading_ease" (PFloat ease) in
            match flesch_kincaid_grade text with
            | Raised _ => (metrics, false)
            | Returned grade =>
                (dict_set metrics "flesch_kincaid_grade" (PFloat grade),
                 true)
            end
        end
    end in
  if go_on then
    match (sentences <~ extract_sentences L text ;;
           words <~ word_tokenize L text ;;
           Returned (sentences, words)) with
    | Raised _ => metrics
    | Returned (sentences, words) =>
        dict_update metrics
          [("sentence_count", PInt (len sentences));
           ("word_count", PInt (len words));
           ("avg_words_per_sentence",
            match sentences with
            | [] => PInt 0
            | _ => truediv (len words) (len sentences)
            end);
           ("avg_sentence_length",
            match sentences with
            | [] => PInt 0
            | _ => truediv (split_total sentences) (len sentences)
            end)]
    end
  else metrics.

Definition span_entity (ent : span) : pyvalue :=
  PDict [("text", PStr (span_text ent));
         ("label", PStr (label_ ent));
         ("start", PInt (start_char ent));
         ("end", PInt (end_char ent));
         ("confidence",
          match span_score ent with
          | Some v => v
          | None => PFloat 1%float
          end)].

Definition nltk_entity (current_entity : list string)
    (current_label : option string) : pyvalue :=
  PDict [("text", PStr (join " " current_entity));
         ("label", match current_label with
                   | Some l => PStr l
                   | None => PNone
                   end);
         ("confidence", PFloat 0.8%float)].

(** The loop over the chunks; an entity still open when the chunks end is
    not appended. *)
Fixpoint nltk_entities (chunks : list chunk) (entities : list pyvalue)
    (current_entity : list string) (current_label : option string)
  : list pyvalue :=
  match chunks with
  | [] => entities
  | c :: rest =>
      let entities :=
        match current_entity with
        | [] => entities
        | _ => (entities ++ [nltk_entity current_entity current_label])%list
        end in
      match c with
      | Subtree label leaves =>
          nltk_entities rest entities (map fst leaves) (Some label)
      | Leaf _ _ =>
          match current_entity with
          | [] => nltk_entities rest entities current_entity current_label
          | _ => nltk_entities rest entities [] None
          end
      end
  end.

Definition extract_entities (L : Libs) (text : string) : list pyvalue :=
  match nlp_model L with
  | Some nlp =>
      match nlp text with
      | Returned ents => map span_entity ents
      | Raised _ => []
      end
  | None =>
      match (tokens <~ word_tokenize L text ;;
             pos_tags <~ pos_tag L tokens ;;
             ne_chunk L pos_tags) with
      | Returned chunks => nltk_entities chunks [] [] None
      | Raised _ => []
      end
  end.

(** [word_freq[token] = word_freq.get(token, 0) + 1] over the tokens. *)
Fixpoint bump (token : string) (word_freq : list (string * Z))
  : list (string * Z) :=
  match word_freq with
  | [] => [(token, 1)]
  | (w, n) :: rest =>
      if String.eqb w token then (w, n + 1) :: rest
      else (w, n) :: bump token rest
  end.
Definition count_words (tokens : list string) : list (string * Z) :=
  fold_left (fun word_freq token => bump token word_freq) tokens [].

(** [sorted(items, key=lambda x: x[1], reverse=True)]: greatest first,
    equal keys in their order of arrival. *)
Fixpoint insert_desc {A} (x : A * Z) (l : list (A * Z)) : list (A * Z) :=
  match l with
  | [] => [x]
  | y :: l' => if snd y <? snd x then x :: y :: l' else y :: insert_desc x l'
  end.
Definition sorted_desc {A} (items : list (A * Z)) : list (A * Z) :=
  fold_left (fun acc x => insert_desc x acc) items [].

Definition slice_items {A} (bound : option Z) (l : list A) : list A :=
  match bound with
  | Some n => slice_to n l
  | None => l
  end.

Definition extract_keywords_items (L : Libs) (text : string)
    (num_keywords : pyvalue) : outcome (list keyword_item) :=
  match tfidf L with
  | None =>
      tokens <~ tokenize_text L text ;;
      bound <~ slice_bound num_keywords ;;
      Returned
        (map (fun '(word, freq) =>
                {| keyword := word;
                   score := PInt freq;
                   weight := truediv freq (len tokens) |})
           (slice_items bound (sorted_desc (count_words tokens))))
  | Some vectorize =>
      sentences <~ extract_sentences L text ;;
      vectorize
        (if len sentences <? 2 then [text] else sentences) num_keywords
  end.

(** [except Exception: return []] *)
Definition extract_keywords (L : Libs) (text : string)
    (num_keywords : pyvalue) : list keyword_item :=
  match extract_keywords_items L text num_keywords with
  | Returned items => items
  | Raised _ => []
  end.

Definition keyword_dict (k : keyword_item) : pyvalue :=
  PDict [("keyword", PStr (keyword k));
         ("score", score k);
         ("weight", weight k)].

(** The score of one sentence in [generate_summary]. *)
Definition sentence_score (L : Libs) (keyword_set : list string)
    (sentence : string) : outcome Z :=
  words <~ tokenize_text L sentence ;;
  let overlap :=
    List.filter (fun w => mem w keyword_set) (remove_dups words) in
  let word_count := len (py_split sentence) in
  Returned
    (len overlap +
     (if (10 <=? word_count) && (word_count <=? 30) then 2
      else if word_count <? 5 then -1 else 0)).

Fixpoint score_sentences (L : Libs) (keyword_set : list string)
    (sentences : list string) : outcome (list (string * Z)) :=
  match sentences with
  | [] => Returned []
  | sentence :: rest =>
      sc <~ sentence_score L keyword_set sentence ;;
      scored <~ score_sentences L keyword_set rest ;;
      Returned ((sentence, sc) :: scored)
  end.

(** The loop that fills [summary_sentences] until one sentence does not
    fit. *)
Fixpoint take_fitting (max_length : pyvalue) (current_length : Z)
    (scored : list (string * Z)) : outcome (list string) :=
  match scored with
  | [] => Returned []
  | (sentence, _) :: rest =>
      fits <~ int_le (current_length + py_len sentence) max_length ;;
      if fits : bool then
        chosen <~ take_fitting max_length
                    (current_length + py_len sentence) rest ;;
        Returned (sentence :: chosen)
      else Returned []
  end.

(** [sentences.index(s)] for an [s] of the list. *)
Fixpoint index_of (s : string) (sentences : list string) : Z :=
  match sentences with
  | [] => 0
  | x :: rest => if String.eqb x s then 0 else 1 + index_of s rest
  end.

(** The sentences in the order of [original_order.sort(key=index)]:
    smallest index first, which is greatest first on the opposite. *)
Definition in_original_order (sentences chosen : list string)
  : list string :=
  map fst (sorted_desc (map (fun s => (s, - index_of s sentences)) chosen)).

Definition generate_summary_try (L : Libs) (text : string)
    (max_length : pyvalue) : outcome string :=
  sentences <~ extract_sentences L text ;;
  match sentences with
  | [] => Returned ""
  | _ =>
      short <~ int_le (py_len (join " " sentences)) max_length ;;
      if short : bool then Returned text
      else
        let keywords := extract_keywords L text (PInt 20) in
        let keyword_set := map keyword keywords in
        scored <~ score_sentences L keyword_set sentences ;;
        chosen <~ take_fitting max_length 0 (sorted_desc scored) ;;
        Returned (join " " (in_original_order sentences chosen))
  end.

Definition generate_summary (L : Libs) (text : string)
    (max_length : pyvalue) : outcome string :=
  try_except (generate_summary_try L text max_length)
    (fun _ =>
       long <~ int_gt (py_len text) max_length ;;
       if long : bool then
         bound <~ slice_bound max_length ;;
         Returned
           (match bound with
            | Some n => str_slice_to n text
            | None => text
            end ++ "...")
       else Returned text).

Definition default_categories : list string :=
  ["business"; "technology"; "science"; "health"; "education";
   "entertainment"; "sports"; "politics"; "travel"; "food";
   "finance"; "legal"; "medical"; "academic"; "news"].

Definition category_keywords : list (string * list string) :=
  [("business",
    ["business"; "company"; "market"; "profit"; "revenue"; "corporate"]);
   ("technology",
    ["technology"; "software"; "computer"; "digital"; "ai";
     "machine learning"]);
   ("science",
    ["research"; "study"; "experiment"; "hypothesis"; "scientific"]);
   ("health",
    ["health"; "medical"; "doctor"; "patient"; "treatment"; "disease"]);
   ("education",
    ["education"; "student"; "teacher"; "school"; "university";
     "learning"]);
   ("legal", ["law"; "legal"; "court"; "judge"; "attorney"; "contract"]);
   ("finance",
    ["finance"; "money"; "investment"; "bank"; "economic"; "financial"]);
   ("academic",
    ["paper"; "abstract"; "methodology"; "conclusion"; "references";
     "journal"])].

Fixpoint keywords_of (category : string)
    (table : list (string * list string)) : list string :=
  match table with
  | [] => []
  | (c, ks) :: rest =>
      if String.eqb c category then ks else keywords_of category rest
  end.

Definition category_score (text_lower category : string) : Z :=
  fold_left (fun sc kw => sc + str_count text_lower kw)
    (keywords_of category category_keywords) 0.

(** [scores[category] = score] *)
Fixpoint set_score (category : string) (sc : Z) (scores : list (string * Z))
  : list (string * Z) :=
  match scores with
  | [] => [(category, sc)]
  | (c, v) :: rest =>
      if String.eqb c category then (c, sc) :: rest
      else (c, v) :: set_score category sc rest
  end.

(** [max(scores, key=scores.get)]: the first key of the greatest score. *)
Fixpoint first_max (best : string * Z) (scores : list (string * Z))
  : string * Z :=
  match scores with
  | [] => best
  | x :: rest => first_max (if snd best <? snd x then x else best) rest
  end.

Definition classify (text : string) (categories : list string) : dict :=
  let text_lower := lower text in
  let scores :=
    fold_left
      (fun scores category =>
         set_score category (category_score text_lower category) scores)
      categories [] in
  let total := fold_left (fun acc x => acc + snd x) scores 0 in
  let primary :=
    match scores with
    | [] => ("general", 0)
    | x :: rest => first_max x rest
    end in
  [("primary_category", PStr (fst primary));
   ("confidence",
    if 0 <? total then truediv (snd primary) total else PInt 0);
   ("all_scores", PDict (map (fun x => (fst x, PInt (snd x))) scores));
   ("classification_type", PStr "keyword_based")].

Fixpoint as_strings (l : list pyvalue) : option (list string) :=
  match l with
  | [] => Some []
  | PStr s :: rest =>
      match as_strings rest with
      | Some ss => Some (s :: ss)
      | None => None
      end
  | _ => None
  end.

Definition classify_text (L : Libs) (text : string) (categories : pyvalue)
  : outcome dict :=
  if truthy categories then
    match categories with
    | PList l =>
        match as_strings l with
        | Some cs => Returned (classify text cs)
        | None => classify_untyped L text categories
        end
    | _ => classify_untyped L text categories
    end
  else Returned (classify text default_categories).

Definition option_on (options : dict) (name : string) : bool :=
  truthy (dict_get_default options name (PBool true)).

(** The body of [try] in [process_text]: [results] as the body leaves it,
    and the exception that cut it short, if one did. *)
Definition process_text_try (L : Libs) (text : string) (options : dict)
    (results : dict) : dict * option exn :=
  let cleaned_text := clean_text L text in
  let results := dict_set results "cleaned_text" (PStr cleaned_text) in
  let results :=
    dict_set results "cleaned_length" (PInt (py_len cleaned_text)) in
  match extract_sentences L cleaned_text with
  | Raised e => (results, Some e)
  | Returned sentences =>
  match tokenize_text L cleaned_text with
  | Raised e => (results, Some e)
  | Returned tokens =>
      let results :=
        dict_update results
          [("sentence_count", PInt (len sentences));
           ("word_count", PInt (len tokens));
           ("unique_words", PInt (len (remove_dups tokens)));
           ("avg_sentence_length",
            match sentences with
            | [] => PInt 0
            | _ => truediv (len tokens) (len sentences)
            end)] in
      let results :=
        if option_on options "calculate_readability"
        then dict_set results "readability"
               (PDict (calculate_readability L cleaned_text))
        else results in
      let results :=
        if option_on options "extract_entities"
        then dict_set results "entities"
               (PList (extract_entities L cleaned_text))
        else results in
      let results :=
        if option_on options "extract_keywords"
        then dict_set results "keywords"
               (PList (map keyword_dict
                  (extract_keywords L cleaned_text
                     (dict_get_default options "num_keywords" (PInt 10)))))
        else results in
      match
        (if option_on options "classify_text"
         then
           c <~ classify_text L cleaned_text
                  (dict_get_default options "categories" PNone) ;;
           Returned (dict_set results "classification" (PDict c))
         else Returned results)
      with
      | Raised e => (results, Some e)
      | Returned results =>
          match
            (if option_on options "generate_summary"
             then
               summary <~ generate_summary L cleaned_text
                 (dict_get_default options "summary_max_length"
                    (PInt 500)) ;;
               Returned (dict_set results "summary" (PStr summary))
             else Returned results)
          with
          | Raised e => (results, Some e)
          | Returned results => (results, None)
          end
      end
  end
  end.

(** [options] is [None] when the argument is left out; [not options]
    holds for [None] and for the empty dictionary.  [now] is
    [datetime.utcnow().isoformat()]. *)
Definition process_text (L : Libs) (text : string) (options : option dict)
    (now : string) : outcome dict :=
  let options := match options with Some o => o | None => [] end in
  let results :=
    [("processed_at", PStr now); ("original_length", PInt (py_len text))] in
  let '(results, raised) := process_text_try L text options results in
  Returned
    (match raised with
     | None => dict_set results "success" (PBool true)
     | Some e =>
         dict_update results
           [("success", PBool false); ("error", PStr (exn_str e))]
     end).

End TextProcessor.

(** ** Well-typed options *)

(** A value of the option [categories] that [classify_text] is written
    for: one that counts as absent, or a list of strings. *)
Definition categories_typed (v : pyvalue) : bool :=
  negb (truthy v) ||
  match v with
  | PList l =>
      match TextProcessor.as_strings l with
      | Some _ => true
      | None => false
      end
  | _ => false
  end.

(** The dictionary [results] of [process_text] before its [try]. *)
Definition initial_results (text now : string) : dict :=
  [("processed_at", PStr now); ("original_length", PInt (py_len text))].

(** The options as [process_text] reads them. *)
Definition options_read (options : option dict) : dict :=
  match options with Some o => o | None => [] end.

(** What the libraries do with an empty text when they work: no pattern of
    [clean_text] matches in it, and the tokenizers of NLTK find nothing in
    it. *)
Definition quiet_on_empty (L : TextProcessor.Libs) : Prop :=
  (forall pattern repl,
      In pattern [TextProcessor.pat_whitespace; TextProcessor.pat_special;
                  TextProcessor.pat_url; TextProcessor.pat_email] ->
      TextProcessor.re_sub L pattern repl "" = "") /\
  TextProcessor.sent_tokenize L "" = Returned [] /\
  TextProcessor.word_tokenize L "" = Returned [].

(** The keys that [process_text] can put in its result. *)
Definition result_keys : list string :=
  ["processed_at"; "original_length"; "cleaned_text"; "cleaned_length";
   "sentence_count"; "word_count"; "unique_words"; "avg_sentence_length";
   "readability"; "entities"; "keywords"; "classification"; "summary";
   "success"; "error"].

(** ** Sample environments *)

(** Every connection is open and every call returns. *)
Definition healthy : Transport :=
  {| application_state := fun _ => CONNECTED;
     accept := fun _ => None;
     send_text := fun _ _ => None |}.

(** As [healthy], but sending to a connection of [bad] raises. *)
Definition failing_on (bad : list WebSocket) : Transport :=
  {| application_state := fun _ => CONNECTED;
     accept := fun _ => None;
     send_text := fun ws _ =>
       if existsb (Nat.eqb ws) bad
       then Some (Exn "RuntimeError" "connection closed")
       else None |}.

(** As [healthy], but [accept] raises on every connection, as it does on a
    connection that was accepted before. *)
Definition accepted_before : Transport :=
  {| application_state := fun _ => CONNECTED;
     accept := fun _ => Some (Exn "RuntimeError" "websocket.accept");
     send_text := fun _ _ => None |}.

(** Libraries reduced to the simplest behaviour: no optional package, one
    sentence per non-empty text, tokens split at white space. *)
Definition plain_libs : TextProcessor.Libs :=
  {| TextProcessor.re_sub := fun _ _ text => text;
     TextProcessor.sent_tokenize := fun text =>
       Returned (if String.eqb text "" then [] else [text]);
     TextProcessor.word_tokenize := fun text => Returned (py_split text);
     TextProcessor.stop_words := ["the"; "a"; "of"];
     TextProcessor.lemmatize := fun token => Returned token;
     TextProcessor.pos_tag := fun tokens =>
       Returned (map (fun t => (t, "NN")) tokens);
     TextProcessor.ne_chunk := fun tags =>
       Returned (map (fun t => TextProcessor.Leaf (fst t) (snd t)) tags);
     TextProcessor.nlp_model := None;
     TextProcessor.flesch := None;
     TextProcessor.tfidf := None;
     TextProcessor.classify_untyped := fun _ _ =>
       Raised (type_error "unhashable type: 'list'") |}.

(** As [plain_libs], but the tokenizer data of NLTK is missing. *)
Definition no_punkt_libs : TextProcessor.Libs :=
  {| TextProcessor.re_sub := fun _ _ text => text;
     TextProcessor.sent_tokenize := fun _ =>
       Raised (Exn "LookupError" "Resource punkt not found");
     TextProcessor.word_tokenize := fun _ =>
       Raised (Exn "LookupError" "Resource punkt not found");
     TextProcessor.stop_words := [];
     TextProcessor.lemmatize := fun token => Returned token;
     TextProcessor.pos_tag := fun _ => Returned [];
     TextProcessor.ne_chunk := fun _ => Returned [];
     TextProcessor.nlp_model := None;
     TextProcessor.flesch := None;
     TextProcessor.tfidf := None;
     TextProcessor.classify_untyped := fun _ _ =>
       Raised (type_error "unhashable type: 'list'") |}.

(** ** Counting registrations and deliveries *)

(** How often a connection stands in the list of a manager. *)
Definition registrations (ws : WebSocket) (cm : ConnectionManager.t) : nat :=
  length (List.filter (Nat.eqb ws) (ConnectionManager.active_connections cm)).

(** How many messages went to a connection. *)
Definition copies (ws : WebSocket) (sent : deliveries) : nat :=
  length (List.filter (fun d => Nat.eqb ws (fst d)) sent).

(** How often a connection stands in the list kept for a key. *)
Definition registered (registry : gmap string ConnectionManager.t)
    (key : string) (ws : WebSocket) : nat :=
  match registry !! key with
  | Some cm => registrations ws cm
  | None => 0%nat
  end.

(** The connections of a key that a broadcast of [message] reaches. *)
Definition receivers (tr : Transport)
    (registry : gmap string ConnectionManager.t) (key : string)
    (message : pyvalue) : list WebSocket :=
  match registry !! key with
  | Some cm =>
      List.filter (ConnectionManager.send_succeeds tr message)
        (ConnectionManager.active_connections cm)
  | None => []
  end.

(** The message that [send_job_update] builds. *)
Definition job_update_message (job_id : string) (data : pyvalue)
    (now : string) : pyvalue :=
  PDict [("type", PStr "job_update");
         ("job_id", PStr job_id);
         ("data", data);
         ("timestamp", PStr now)].

(** ** Sample registries *)

(** The connection 1 of the user [alice], and the connection 2 that watches
    the job [job-1]. *)
Definition watched_manager : WebSocketManager.t :=
  fst (WebSocketManager.subscribe_to_job healthy 2%nat "job-1"
         (fst (fst (WebSocketManager.connect_user healthy 1%nat "alice" None
                      "t0" WebSocketManager.init)))).

(** ** Sample jobs *)

(** A job that the worker [worker-1] took at time 10. *)
Definition held_job : ProcessingJob.t :=
  ProcessingJob.start_processing (Some "worker-1") 10 ProcessingJob.new.



(** ** app/workers/tasks/document_tasks.py: [batch_process_documents] *)

(** The loop over [zip(job_ids, document_ids)].  [apply_async job_id
    document_id] is what queueing [process_document] for the pair gives:
    the id of the queued task, or the exception of the broker. *)
Fixpoint batch_loop (apply_async : string -> string -> outcome string)
    (job_ids document_ids : list string)
  : list pyvalue * list pyvalue :=
  match job_ids, document_ids with
  | job_id :: job_ids', document_id :: document_ids' =>
      let '(results, failed) :=
        batch_loop apply_async job_ids' document_ids' in
      match apply_async job_id document_id with
      | Returned task_id =>
          (PDict [("document_id", PStr document_id);
                  ("job_id", PStr job_id);
                  ("task_id", PStr task_id)] :: results,
           failed)
      | Raised e =>
          (results,
           PDict [("document_id", PStr document_id);
                  ("error", PStr (exn_str e))] :: failed)
      end
  | _, _ => ([], [])
  end.

Definition batch_process_documents
    (apply_async : string -> string -> outcome string)
    (job_ids document_ids : list string) : dict :=
  let '(results, failed) := batch_loop apply_async job_ids document_ids in
  [("success", PBool (match failed with [] => true | _ => false end));
   ("queued", PList results);
   ("failed", PList failed);
   ("total", PInt (Z.of_nat (length document_ids)))].

(** The entry of [queued] for a pair, and the entry of [failed]. *)
Definition queued_entry (job_id document_id task_id : string) : pyvalue :=
  PDict [("document_id", PStr document_id);
         ("job_id", PStr job_id);
         ("task_id", PStr task_id)].
Definition failed_entry (document_id : string) (e : exn) : pyvalue :=
  PDict [("document_id", PStr document_id);
         ("error", PStr (exn_str e))].

(** The entries for the pairs whose queueing returned, and for those
    whose queueing raised, in the order of the pairs. *)
Definition queued_entries (apply_async : string -> string -> outcome string)
    (pairs : list (string * string)) : list pyvalue :=
  flat_map
    (fun pair =>
       match apply_async (fst pair) (snd pair) with
       | Returned task_id => [queued_entry (fst pair) (snd pair) task_id]
       | Raised _ => []
       end)
    pairs.
Definition failed_entries (apply_async : string -> string -> outcome string)
    (pairs : list (string * string)) : list pyvalue :=
  flat_map
    (fun pair =>
       match apply_async (fst pair) (snd pair) with
       | Returned _ => []
       | Raised e => [failed_entry (snd pair) e]
       end)
    pairs.

(** ** Predicates of the properties *)

(** How often a word stands among the tokens. *)
Definition occurrences (word : string) (tokens : list string) : Z :=
  Z.of_nat (length (List.filter (String.eqb word) tokens)).

(** The entry of [word_freq] for a word. *)
Definition has_key (word : string) (entry : string * Z) : bool :=
  String.eqb (fst entry) word.

(** No metadata is kept for a connection that is not in the list. *)
Definition metadata_registered (cm : ConnectionManager.t) : Prop :=
  forall ws md,
    ConnectionManager.metadata cm !! ws = Some md ->
    In ws (ConnectionManager.active_connections cm).

(** The list kept for a key, empty when the key is absent. *)
Definition members (registry : gmap string ConnectionManager.t)
    (key : string) : list WebSocket :=
  match registry !! key with
  | Some cm => ConnectionManager.active_connections cm
  | None => []
  end.

(** A chunk after which an entity is open: a subtree with a token. *)
Definition opens_entity (c : TextProcessor.chunk) : bool :=
  match c with
  | TextProcessor.Subtree _ (_ :: _) => true
  | _ => false
  end.

(** The lengths of the sentences, added up. *)
Definition total_length (sentences : list string) : Z :=
  fold_right (fun s acc => py_len s + acc) 0 sentences.

(** Greatest first. *)
Fixpoint descending (l : list Z) : Prop :=
  match l with
  | [] => True
  | x :: rest => (forall y, In y rest -> y <= x) /\ descending rest
  end.

(** Libraries as [plain_libs], whose chunker makes one entity of each
    token that starts with a capital letter. *)
Definition starts_upper (token : string) : bool :=
  match token with
  | String c _ =>
      ((65 <=? nat_of_ascii c)%nat && (nat_of_ascii c <=? 90)%nat)
  | EmptyString => false
  end.

Definition capital_libs : TextProcessor.Libs :=
  {| TextProcessor.re_sub := fun _ _ text => text;
     TextProcessor.sent_tokenize := fun text =>
       Returned (if String.eqb text "" then [] else [text]);
     TextProcessor.word_tokenize := fun text => Returned (py_split text);
     TextProcessor.stop_words := ["the"; "a"; "of"];
     TextProcessor.lemmatize := fun token => Returned token;
     TextProcessor.pos_tag := fun tokens =>
       Returned (map (fun t => (t, "NN")) tokens);
     TextProcessor.ne_chunk := fun tags =>
       Returned
         (map (fun t =>
                 if starts_upper (fst t)
                 then TextProcessor.Subtree "PERSON" [t]
                 else TextProcessor.Leaf (fst t) (snd t))
            tags);
     TextProcessor.nlp_model := None;
     TextProcessor.flesch := None;
     TextProcessor.tfidf := None;
     TextProcessor.classify_untyped := fun _ _ =>
       Raised (type_error "unhashable type: 'list'") |}.

(** * Properties *)

(** ** Comparisons of floats *)

Section FloatOrder.

Local Open Scope float_scope.

Lemma not_nan_spec (x : float) :
  PrimFloat.is_nan x = false -> Prim2SF x <> S754_nan.
Proof.
  unfold PrimFloat.is_nan. rewrite FloatAxioms.eqb_spec. intros H Hnan.
  rewrite Hnan in H. discriminate H.
Qed.

(** Two numbers that are not NaN are ordered one way or the other. *)
Lemma SF_not_lt_le (a b : spec_float) :
  a <> S754_nan -> b <> S754_nan -> SFltb a b = false -> SFleb b a = true.
Proof.
  intros Ha Hb. unfold SFltb, SFleb.
  destruct a as [sa | sa | | sa ma ea], b as [sb | sb | | sb mb eb];
    try congruence; cbn;
    try (destruct sa; try destruct sb; cbn; congruence).
  assert (Hm : Pos.compare_cont Eq mb ma
               = CompOpp (Pos.compare_cont Eq ma mb))
    by (rewrite Pos.compare_cont_antisym; reflexivity).
  destruct sa, sb; cbn; try congruence;
    change (PosDef.Pos.compare_cont Eq mb ma)
      with (Pos.compare_cont Eq mb ma);
    change (PosDef.Pos.compare_cont Eq ma mb)
      with (Pos.compare_cont Eq ma mb);
    rewrite (Z.compare_antisym ea eb), Hm;
    destruct (ea ?= eb)%Z; cbn; try congruence;
    destruct (Pos.compare_cont Eq ma mb); cbn; congruence.
Qed.

Lemma not_lt_le (x y : float) :
  PrimFloat.is_nan x = false -> PrimFloat.is_nan y = false ->
  (x <? y) = false -> (y <=? x) = true.
Proof.
  intros Hx Hy. rewrite FloatAxioms.ltb_spec, FloatAxioms.leb_spec.
  apply SF_not_lt_le; now apply not_nan_spec.
Qed.

(** A number below 0.0 is not above 100.0. *)
Lemma below_zero_not_above_hundred (p : float) :
  (p <? 0) = true -> (100 <? p) = true -> False.
Proof.
  rewrite !FloatAxioms.ltb_spec. unfold SFltb.
  change (Prim2SF 100) with (S754_finite false 7036874417766400 (-46)).
  change (Prim2SF 0) with (S754_zero false).
  destruct (Prim2SF p) as [[] | [] | | [] m ex]; cbn; congruence.
Qed.

Lemma clamp_percentage_cases (p : float) :
  ((p <? 0) = true /\ clamp_percentage p = 0) \/
  ((p <? 0) = false /\ (100 <? p) = true /\ clamp_percentage p = 100) \/
  ((p <? 0) = false /\ (100 <? p) = false /\ clamp_percentage p = p).
Proof.
  unfold clamp_percentage, py_max, py_min.
  destruct (p <? 0) eqn:Hlow.
  - left. split; [reflexivity |]. reflexivity.
  - right. destruct (100 <? p) eqn:Hhigh.
    + left. repeat split; reflexivity.
    + right. repeat split; reflexivity.
Qed.

Lemma clamp_percentage_range (p : float) :
  PrimFloat.is_nan p = false ->
  (0 <=? clamp_percentage p) = true /\ (clamp_percentage p <=? 100) = true.
Proof.
  intros Hp.
  destruct (clamp_percentage_cases p)
    as [[_ ->] | [(_ & _ & ->) | (Hlow & Hhigh & ->)]].
  - split; reflexivity.
  - split; reflexivity.
  - split.
    + apply not_lt_le; [exact Hp | reflexivity | exact Hlow].
    + apply not_lt_le; [reflexivity | exact Hp | exact Hhigh].
Qed.

End FloatOrder.

(** ** The job record *)

Section JobProperties.

Import ProcessingJob.



(** C1 (as the code has it): taking a job is never refused.
    [start_processing] sets the status to Running and records the worker
    and the time whatever the job was before, so on a job that is already
    Running a second call succeeds and leaves exactly what it would have
    left on the job before the first call: the later worker holds the
    job. *)
Theorem claim_is_never_refused
    (j : ProcessingJob.t) (w1 w2 : option string) (t1 t2 : datetime) :
  let j1 := start_processing w1 t1 j in
  let j2 := start_processing w2 t2 j1 in
  is_running j1 = true /\
  status j2 = JobStatus.RUNNING /\ worker_id j2 = w2 /\
  started_at j2 = Some t2 /\ j2 = start_processing w2 t2 j.
Proof. repeat split. Qed.


(** C3 (as the code has it): the progress stored is a percentage.  For
    every number reported (any float that is not NaN), both
    [update_progress] methods store a value between 0.0 and 100.0: 0.0 for
    a negative number, 100.0 for a number above 100.0, and the number
    itself otherwise. *)
Theorem update_progress_clamps_to_percentage
    (stage : string) (percentage : float) (j : ProcessingJob.t)
    (d : Document.t) :
  PrimFloat.is_nan percentage = false ->
  let stored := progress_percentage (update_progress stage percentage j) in
  Document.progress_percentage (Document.update_progress stage percentage d)
  = stored /\
  PrimFloat.leb 0 stored = true /\ PrimFloat.leb stored 100 = true /\
  (PrimFloat.ltb percentage 0 = true -> stored = 0%float) /\
  (PrimFloat.ltb 100 percentage = true -> stored = 100%float) /\
  (PrimFloat.ltb percentage 0 = false ->
   PrimFloat.ltb 100 percentage = false -> stored = percentage).
Proof.
  intros Hnan. cbn.
  destruct (clamp_percentage_range percentage Hnan) as [Hlow Hhigh].
  split; [reflexivity |]. split; [exact Hlow |]. split; [exact Hhigh |].
  destruct (clamp_percentage_cases percentage)
    as [[H0 ->] | [(H0 & H1 & ->) | (H0 & H1 & ->)]];
    repeat split; intros; try reflexivity; try congruence.
  - exfalso. exact (below_zero_not_above_hundred percentage H0 H).
Qed.


End JobProperties.

Section JobExamples.

Import ProcessingJob.

(** C1, as stated, fails: [held_job] is Running and held by [worker-1];
    the call for [worker-2] is not refused, it changes the job and makes
    [worker-2] its holder. *)
Lemma second_claim_takes_the_job_over :
  is_running held_job = true /\
  worker_id held_job = Some "worker-1" /\
  worker_id (start_processing (Some "worker-2") 20 held_job)
  = Some "worker-2" /\
  start_processing (Some "worker-2") 20 held_job <> held_job.
Proof. repeat split. discriminate. Qed.



(** C3, witness: the report of 150.0 percent. *)
Lemma update_progress_clamps_to_percentage_witness :
  PrimFloat.is_nan 150 = false /\
  progress_percentage (update_progress "extraction" 150 new) = 100%float.
Proof.
  assert (H : PrimFloat.is_nan 150 = false) by reflexivity.
  split; [exact H |].
  destruct (update_progress_clamps_to_percentage "extraction" 150 new
              (Document.mk "processing" "extraction" 0 None None None 0) H)
    as (_ & _ & _ & _ & Hhigh & _).
  apply Hhigh. reflexivity.
Defined.

(** C3, as stated, fails: the report 50.0 is stored as it is, and 50.0 is
    above 1.0. *)
Lemma fifty_is_stored_above_one :
  let stored := progress_percentage (update_progress "extraction" 50 new) in
  stored = 50%float /\ PrimFloat.leb stored 1 = false.
Proof. split; reflexivity. Qed.

(** A NaN passes both comparisons and is stored as it is. *)
Example update_progress_stores_nan :
  PrimFloat.is_nan
    (progress_percentage (update_progress "extraction" PrimFloat.nan new))
  = true.
Proof. reflexivity. Qed.


End JobExamples.

(** ** The fan-out registry *)

Section FanOut.

Import ConnectionManager.

Lemma broadcast_loop_spec (tr : Transport) (message : pyvalue)
    (l : list WebSocket) :
  broadcast_loop tr message l
  = (map (fun c => (c, message)) (List.filter (send_succeeds tr message) l),
     List.filter (fun c => negb (send_succeeds tr message c)) l).
Proof.
  induction l as [| c l IH]; [reflexivity |].
  cbn [broadcast_loop List.filter]. rewrite IH.
  destruct (send_succeeds tr message c); reflexivity.
Qed.

Lemma active_connections_cleanup (ds : list WebSocket) (cm : t) :
  active_connections (fold_left (fun acc c => disconnect c acc) ds cm)
  = fold_left (fun l c => remove_first c l) ds (active_connections cm).
Proof.
  revert cm. induction ds as [| d ds IH]; intros cm; [reflexivity |].
  cbn [fold_left]. rewrite IH. reflexivity.
Qed.

(** Removing connections that are all different from [x] leaves an [x] at
    the head where it is. *)
Lemma remove_all_keeps_head (x : WebSocket) (ds l : list WebSocket) :
  Forall (fun d => d <> x) ds ->
  fold_left (fun l c => remove_first c l) ds (x :: l)
  = x :: fold_left (fun l c => remove_first c l) ds l.
Proof.
  intros Hds. revert l. induction Hds as [| d ds Hd _ IH]; intros l.
  - reflexivity.
  - cbn [fold_left remove_first].
    destruct (Nat.eqb_spec x d) as [-> | _]; [contradiction |]. apply IH.
Qed.

(** Removing, one by one, the connections that fail a test leaves those
    that pass it. *)
Lemma remove_failing (f : WebSocket -> bool) (l : list WebSocket) :
  fold_left (fun l c => remove_first c l)
    (List.filter (fun c => negb (f c)) l) l
  = List.filter f l.
Proof.
  induction l as [| x l IH]; [reflexivity |].
  cbn [List.filter]. destruct (f x) eqn:Hx; cbn [negb].
  - rewrite remove_all_keeps_head; [now rewrite IH |].
    apply Forall_forall. intros d Hd ->.
    apply list_elem_of_In, filter_In in Hd. destruct Hd as [_ Hd].
    rewrite Hx in Hd. discriminate Hd.
  - cbn [fold_left remove_first]. rewrite Nat.eqb_refl. exact IH.
Qed.

Lemma broadcast_spec (tr : Transport) (message : pyvalue) (cm : t) :
  snd (broadcast tr message cm)
  = map (fun c => (c, message))
      (List.filter (send_succeeds tr message) (active_connections cm)) /\
  active_connections (fst (broadcast tr message cm))
  = List.filter (send_succeeds tr message) (active_connections cm).
Proof.
  unfold broadcast. rewrite broadcast_loop_spec. cbn [fst snd].
  split; [reflexivity |].
  rewrite active_connections_cleanup. apply remove_failing.
Qed.

(** C5: in a broadcast, the connections on which the send fails (or that
    are not connected) are the only ones removed, and the event is sent to
    every other connection of the list: the messages sent are the message
    for each connection that passes, in order, the list left is the list
    of the connections that pass; so a connection of the list that passes
    gets the message and stays, and a connection that fails gets nothing
    and is no longer in the list. *)
Theorem broadcast_isolates_failures (tr : Transport) (message : pyvalue)
    (cm : t) :
  let ok := send_succeeds tr message in
  let sent := snd (broadcast tr message cm) in
  let left := active_connections (fst (broadcast tr message cm)) in
  sent = map (fun c => (c, message)) (List.filter ok (active_connections cm))
  /\ left = List.filter ok (active_connections cm)
  /\ (forall c, In c (active_connections cm) -> ok c = true ->
       In (c, message) sent /\ In c left)
  /\ (forall c, ok c = false ->
       ~ In c left /\ forall m, ~ In (c, m) sent).
Proof.
  cbn zeta. destruct (broadcast_spec tr message cm) as [-> ->].
  split; [reflexivity |]. split; [reflexivity |]. split.
  - intros c Hin Hok. split.
    + apply in_map_iff. exists c. split; [reflexivity |].
      apply filter_In. split; assumption.
    + apply filter_In. split; assumption.
  - intros c Hfail. split.
    + intros Hin. apply filter_In in Hin. destruct Hin as [_ Hok].
      congruence.
    + intros m Hin. apply in_map_iff in Hin.
      destruct Hin as (c' & [= -> _] & Hin).
      apply filter_In in Hin. destruct Hin as [_ Hok]. congruence.
Qed.

Import WebSocketManager.

Lemma broadcast_in_sent (tr : Transport) (message : pyvalue) (key : string)
    (registry : gmap string ConnectionManager.t) :
  snd (broadcast_in tr message key registry)
  = map (fun c => (c, message)) (receivers tr registry key message).
Proof.
  unfold broadcast_in, receivers. destruct (registry !! key) as [cm |].
  - destruct (broadcast tr message cm) as [cm' sent] eqn:Hb. cbn [snd].
    pose proof (proj1 (broadcast_spec tr message cm)) as Hsent.
    rewrite Hb in Hsent. exact Hsent.
  - reflexivity.
Qed.

Lemma send_to_user_spec (tr : Transport) (user_id : string)
    (data : pyvalue) (m : WebSocketManager.t) :
  snd (send_to_user tr user_id data m)
  = map (fun c => (c, data)) (receivers tr (user_connections m) user_id data)
  /\ job_connections (fst (send_to_user tr user_id data m))
     = job_connections m.
Proof.
  unfold send_to_user.
  pose proof (broadcast_in_sent tr data user_id (user_connections m)) as H.
  destruct (broadcast_in tr data user_id (user_connections m)) as [u sent].
  cbn in *. split; [exact H | reflexivity].
Qed.

Lemma send_job_update_spec (tr : Transport) (job_id : string)
    (data : pyvalue) (now : string) (m : WebSocketManager.t) :
  snd (send_job_update tr job_id data now m)
  = map (fun c => (c, job_update_message job_id data now))
      (receivers tr (job_connections m) job_id
         (job_update_message job_id data now)).
Proof.
  unfold send_job_update. fold (job_update_message job_id data now).
  pose proof (broadcast_in_sent tr (job_update_message job_id data now)
                job_id (job_connections m)) as H.
  destruct (broadcast_in tr (job_update_message job_id data now) job_id
              (job_connections m)) as [j sent].
  exact H.
Qed.

(** C7 (as the code has it): a processing update is sent by two
    fan-outs, and the two messages differ.  The connections of the user
    that can be reached get [update_data], whose keys are type
    ([processing_update]), job_id, status, progress, message and
    timestamp, with no stage; then the connections subscribed to the job
    that can be reached get a [job_update] message with the keys type,
    job_id, data and timestamp, where data holds status, progress and
    message. *)
Theorem processing_update_fans_out_twice (tr : Transport)
    (user_id job_id status : string) (progress : float)
    (message : option string) (now_user now_job : string)
    (m : WebSocketManager.t) :
  let user_message :=
    PDict (update_data job_id status progress message now_user) in
  let job_message :=
    job_update_message job_id
      (PDict [("status", PStr status);
              ("progress", PFloat progress);
              ("message", opt_str message)])
      now_job in
  snd (send_processing_update tr user_id job_id status progress message
         now_user now_job m)
  = (map (fun c => (c, user_message))
       (receivers tr (user_connections m) user_id user_message)
     ++ map (fun c => (c, job_message))
          (receivers tr (job_connections m) job_id job_message))%list
  /\ dict_keys (update_data job_id status progress message now_user)
     = ["type"; "job_id"; "status"; "progress"; "message"; "timestamp"]
  /\ dict_get (update_data job_id status progress message now_user) "type"
     = Some (PStr "processing_update")
  /\ dict_get (update_data job_id status progress message now_user) "stage"
     = None
  /\ job_message
     = PDict [("type", PStr "job_update");
              ("job_id", PStr job_id);
              ("data", PDict [("status", PStr status);
                              ("progress", PFloat progress);
                              ("message", opt_str message)]);
              ("timestamp", PStr now_job)].
Proof.
  cbn zeta. split; [| repeat split].
  unfold send_processing_update.
  set (user_message :=
         PDict (update_data job_id status progress message now_user)).
  destruct (send_to_user_spec tr user_id user_message m) as [Hsent Hjobs].
  destruct (send_to_user tr user_id user_message m) as [m1 sent_user].
  cbn [fst snd] in Hsent, Hjobs.
  set (data := PDict [("status", PStr status);
                      ("progress", PFloat progress);
                      ("message", opt_str message)]).
  pose proof (send_job_update_spec tr job_id data now_job m1) as Hjob.
  destruct (send_job_update tr job_id data now_job m1) as [m2 sent_job].
  cbn [snd] in *. rewrite Hsent, Hjob, Hjobs. reflexivity.
Qed.

Lemma remove_first_NoDup (ws : WebSocket) (l : list WebSocket) :
  NoDup l -> ~ In ws (remove_first ws l).
Proof.
  intros Hnodup. induction Hnodup as [| x l Hx _ IH]; cbn [remove_first].
  - intros Hin. destruct Hin.
  - destruct (Nat.eqb_spec x ws) as [-> | Hne].
    + intros Hin. apply Hx. apply list_elem_of_In. exact Hin.
    + intros [Heq | Hin]; [contradiction | exact (IH Hin)].
Qed.

(** C6 (as the code has it): [disconnect_user] clears the channel of the
    user and nothing else.  The subscriber lists of the jobs, of the rooms
    and of the chat sessions are left as they are, whatever the
    connection.  For a connection that the registry maps to no user, such
    as one that only subscribed to a job, nothing changes at all.  For a
    connection that the registry maps to a user, the call drops that
    mapping and the heartbeat, and removes the connection, once, from the
    list of that user (so that a list without repetition no longer holds
    it), deleting the list when it becomes empty. *)
Theorem disconnect_user_clears_the_user_channel_only
    (websocket : WebSocket) (m : WebSocketManager.t) :
  let m' := disconnect_user websocket m in
  (job_connections m' = job_connections m /\
   room_connections m' = room_connections m /\
   chat_connections m' = chat_connections m) /\
  (connection_users m !! websocket = None -> m' = m) /\
  (forall user_id,
      connection_users m !! websocket = Some user_id ->
      connection_users m' !! websocket = None /\
      (websocket ∉ heartbeat_tasks m') /\
      (user_connections m'
       = disconnect_in websocket user_id (user_connections m)) /\
      (forall cm cm',
          user_connections m !! user_id = Some cm ->
          NoDup (active_connections cm) ->
          user_connections m' !! user_id = Some cm' ->
          ~ In websocket (active_connections cm'))).
Proof.
  cbn zeta. unfold disconnect_user.
  destruct (connection_users m !! websocket) as [user |] eqn:Huser.
  - cbn. split; [repeat split |]. split; [discriminate |].
    intros user_id [= <-]. repeat split.
    + apply lookup_delete_eq.
    + intros [_ Hout]%elem_of_difference. apply Hout, elem_of_singleton.
      reflexivity.
    + intros cm cm' Hcm Hnodup. unfold disconnect_in. rewrite Hcm.
      destruct (active_connections (disconnect websocket cm)) eqn:Hleft.
      * rewrite lookup_delete_eq. discriminate.
      * rewrite lookup_insert_eq. intros [= <-].
        apply remove_first_NoDup. exact Hnodup.
  - split; [repeat split |]. split; [reflexivity | discriminate].
Qed.

Lemma filter_eqb_passing (f : WebSocket -> bool) (ws : WebSocket)
    (l : list WebSocket) :
  f ws = true ->
  List.filter (Nat.eqb ws) (List.filter f l) = List.filter (Nat.eqb ws) l.
Proof.
  intros Hf. induction l as [| x l IH]; [reflexivity |].
  cbn [List.filter]. destruct (Nat.eqb_spec ws x) as [<- | Hne].
  - rewrite Hf. cbn [List.filter]. rewrite Nat.eqb_refl, IH. reflexivity.
  - destruct (f x); cbn [List.filter]; [| exact IH].
    destruct (Nat.eqb_spec ws x); [contradiction | exact IH].
Qed.

Lemma copies_map (ws : WebSocket) (message : pyvalue)
    (l : list WebSocket) :
  copies ws (map (fun c => (c, message)) l)
  = length (List.filter (Nat.eqb ws) l).
Proof.
  unfold copies. induction l as [| x l IH]; [reflexivity |].
  cbn [map List.filter fst]. destruct (Nat.eqb ws x); cbn [length];
    rewrite IH; reflexivity.
Qed.

(** A broadcast sends a connection that can be reached one message for
    each time it stands in the list. *)
Lemma broadcast_copies (tr : Transport) (message : pyvalue)
    (ws : WebSocket) (cm : ConnectionManager.t) :
  send_succeeds tr message ws = true ->
  copies ws (snd (broadcast tr message cm)) = registrations ws cm.
Proof.
  intros Hok. rewrite (proj1 (broadcast_spec tr message cm)), copies_map.
  unfold registrations. now rewrite filter_eqb_passing.
Qed.

Lemma connect_returns (tr : Transport) (ws : WebSocket) (md : option dict)
    (cm : ConnectionManager.t) :
  accept tr ws = None ->
  active_connections (fst (connect tr ws md cm))
  = (active_connections cm ++ [ws])%list /\
  snd (connect tr ws md cm) = Returned tt.
Proof. intros H. unfold connect. rewrite H. split; reflexivity. Qed.

Lemma connect_raises (tr : Transport) (ws : WebSocket) (md : option dict)
    (cm : ConnectionManager.t) (e : exn) :
  accept tr ws = Some e -> connect tr ws md cm = (cm, Raised e).
Proof. intros H. unfold connect. rewrite H. reflexivity. Qed.

Lemma registrations_app (ws : WebSocket) (l : list WebSocket) :
  length (List.filter (Nat.eqb ws) (l ++ [ws])) =
  S (length (List.filter (Nat.eqb ws) l)).
Proof.
  rewrite List.filter_app, List.length_app. cbn [List.filter].
  rewrite Nat.eqb_refl. cbn [length]. apply Nat.add_1_r.
Qed.

Lemma connect_in_registered (tr : Transport) (ws : WebSocket)
    (md : option dict) (key : string)
    (registry : gmap string ConnectionManager.t) :
  accept tr ws = None ->
  registered (fst (connect_in tr ws md key registry)) key ws
  = S (registered registry key ws).
Proof.
  intros Hacc. unfold connect_in, registered.
  set (cm := match registry !! key with
             | Some cm => cm
             | None => ConnectionManager.init
             end).
  destruct (connect_returns tr ws md cm Hacc) as [Hlist _].
  destruct (connect tr ws md cm) as [cm' r]. cbn [fst] in *.
  rewrite lookup_insert_eq. unfold registrations. rewrite Hlist.
  rewrite registrations_app. subst cm.
  destruct (registry !! key); reflexivity.
Qed.

(** C8: a connection is registered once for a target.  [connect] begins
    with [accept()], and Starlette lets [accept()] return once on a
    connection: on a connection that was accepted it raises.  So when a
    first [connect] has returned, a second [connect] of the same
    connection to the same manager raises at [accept()], before anything
    is appended: the manager is as the first call left it, the connection
    stands in the list once more than before the first call (exactly once
    when it was not there), and a broadcast that reaches the connection
    sends it as many messages (exactly one).  The same holds for two
    [subscribe_to_job] on one job and the job update that follows. *)
Theorem register_again_changes_nothing (tr1 tr2 tr3 : Transport)
    (websocket : WebSocket) (md : option dict) (cm : ConnectionManager.t)
    (message data : pyvalue) (job_id now : string)
    (m : WebSocketManager.t) (e : exn) :
  accept tr1 websocket = None ->
  accept tr2 websocket = Some e ->
  (let cm1 := fst (connect tr1 websocket md cm) in
   let cm2 := fst (connect tr2 websocket md cm1) in
   snd (connect tr1 websocket md cm) = Returned tt /\
   connect tr2 websocket md cm1 = (cm1, Raised e) /\
   active_connections cm2 = (active_connections cm ++ [websocket])%list /\
   registrations websocket cm2 = S (registrations websocket cm) /\
   (send_succeeds tr3 message websocket = true ->
    copies websocket (snd (broadcast tr3 message cm2))
    = S (registrations websocket cm)) /\
   (registrations websocket cm = 0%nat ->
    send_succeeds tr3 message websocket = true ->
    registrations websocket cm2 = 1%nat /\
    copies websocket (snd (broadcast tr3 message cm2)) = 1%nat)) /\
  (let m1 := fst (subscribe_to_job tr1 websocket job_id m) in
   let m2 := fst (subscribe_to_job tr2 websocket job_id m1) in
   snd (subscribe_to_job tr1 websocket job_id m) = Returned tt /\
   subscribe_to_job tr2 websocket job_id m1 = (m1, Raised e) /\
   registered (job_connections m2) job_id websocket
   = S (registered (job_connections m) job_id websocket) /\
   (send_succeeds tr3 (job_update_message job_id data now) websocket = true ->
    copies websocket (snd (send_job_update tr3 job_id data now m2))
    = S (registered (job_connections m) job_id websocket)) /\
   (registered (job_connections m) job_id websocket = 0%nat ->
    send_succeeds tr3 (job_update_message job_id data now) websocket = true ->
    registered (job_connections m2) job_id websocket = 1%nat /\
    copies websocket (snd (send_job_update tr3 job_id data now m2))
    = 1%nat)).
Proof.
  intros Hacc Hrej.
  destruct (connect_returns tr1 websocket md cm Hacc) as [Hlist Hret].
  assert (Hreg : registrations websocket (fst (connect tr1 websocket md cm))
                 = S (registrations websocket cm)).
  { unfold registrations. rewrite Hlist. apply registrations_app. }
  assert (Hsub : subscribe_to_job tr2 websocket job_id
                   (fst (subscribe_to_job tr1 websocket job_id m))
                 = (fst (subscribe_to_job tr1 websocket job_id m),
                    Raised e)).
  { unfold subscribe_to_job, connect_in.
    destruct (connect tr1 websocket None _) as [cm1 r1].
    cbn [fst job_connections set_job_connections].
    rewrite lookup_insert_eq, (connect_raises tr2 websocket None cm1 e Hrej).
    rewrite insert_insert_eq. reflexivity. }
  assert (Hm1 : registered
                  (job_connections
                     (fst (subscribe_to_job tr1 websocket job_id m)))
                  job_id websocket
                = S (registered (job_connections m) job_id websocket)).
  { unfold subscribe_to_job.
    pose proof (connect_in_registered tr1 websocket None job_id
                  (job_connections m) Hacc) as H1.
    destruct (connect_in tr1 websocket None job_id (job_connections m))
      as [j1 r1]. exact H1. }
  assert (Hjob : forall m2 : WebSocketManager.t,
    send_succeeds tr3 (job_update_message job_id data now) websocket = true ->
    copies websocket (snd (send_job_update tr3 job_id data now m2))
    = registered (job_connections m2) job_id websocket).
  { intros m2 Hsend. rewrite send_job_update_spec, copies_map.
    unfold receivers, registered, registrations.
    destruct (job_connections m2 !! job_id); [| reflexivity].
    rewrite filter_eqb_passing; [reflexivity | exact Hsend]. }
  cbn zeta. rewrite (connect_raises tr2 websocket md _ e Hrej), Hsub.
  cbn [fst]. split.
  - split; [exact Hret |]. split; [reflexivity |].
    split; [exact Hlist |]. split; [exact Hreg |]. split.
    + intros Hsend. rewrite broadcast_copies by exact Hsend. exact Hreg.
    + intros Hnew Hsend. rewrite broadcast_copies by exact Hsend.
      rewrite Hreg, Hnew. split; reflexivity.
  - split.
    + unfold subscribe_to_job, connect_in.
      pose proof (proj2 (connect_returns tr1 websocket None
                           match job_connections m !! job_id with
                           | Some cm0 => cm0
                           | None => ConnectionManager.init
                           end Hacc)) as Hr.
      destruct (connect tr1 websocket None _) as [cm1 r1]. exact Hr.
    + split; [reflexivity |]. split; [exact Hm1 |]. split.
      * intros Hsend. rewrite Hjob by exact Hsend. exact Hm1.
      * intros Hnew Hsend. rewrite Hjob by exact Hsend.
        rewrite Hm1, Hnew. split; reflexivity.
Qed.

End FanOut.

Section FanOutExamples.

Import ConnectionManager WebSocketManager.

(** C5, an instance: the connections 1, 2 and 3, of which 2 fails.  The
    connections 1 and 3 get the event, and 2 alone leaves the list. *)
Lemma broadcast_isolates_failures_witness :
  let cm := ConnectionManager.mk [1; 2; 3]%nat ∅ in
  snd (broadcast (failing_on [2%nat]) (PStr "event") cm)
  = [(1%nat, PStr "event"); (3%nat, PStr "event")] /\
  active_connections (fst (broadcast (failing_on [2%nat]) (PStr "event") cm))
  = [1; 3]%nat.
Proof.
  cbn zeta.
  destruct (broadcast_isolates_failures (failing_on [2%nat]) (PStr "event")
              (ConnectionManager.mk [1; 2; 3]%nat ∅)) as (Hs & Hl & _).
  split; [exact Hs | exact Hl].
Defined.

(** C6, an instance: the connection 1 of [alice] in [watched_manager]. *)
Lemma disconnect_user_clears_the_user_channel_only_witness :
  connection_users watched_manager !! 1%nat = Some "alice" /\
  connection_users (disconnect_user 1%nat watched_manager) !! 1%nat = None /\
  user_connections (disconnect_user 1%nat watched_manager) !! "alice" = None.
Proof.
  assert (H : connection_users watched_manager !! 1%nat = Some "alice")
    by reflexivity.
  split; [exact H |].
  destruct (disconnect_user_clears_the_user_channel_only 1%nat
              watched_manager) as (_ & _ & Hmapped).
  destruct (Hmapped "alice" H) as (Hgone & _ & Hlist & _).
  split; [exact Hgone |]. rewrite Hlist. reflexivity.
Defined.

(** C6, as stated, fails: the connection 2 of [watched_manager] is in the
    subscriber list of [job-1] and mapped to no user.  [disconnect_user]
    changes nothing: the list of [job-1] still holds the connection, and
    a job update is still sent to it. *)
Lemma disconnected_connection_stays_subscribed :
  let m := disconnect_user 2%nat watched_manager in
  connection_users watched_manager !! 2%nat = None /\
  m = watched_manager /\
  (active_connections <$> job_connections m !! "job-1") = Some [2%nat] /\
  snd (send_job_update healthy "job-1" PNone "t1" m)
  = [(2%nat, job_update_message "job-1" PNone "t1")].
Proof. repeat split. Qed.

(** C7, as stated, fails: the user [alice] on connection 1 and a watcher
    of [job-1] on connection 2.  Two messages go out; the one for the
    user has no stage, the one for the watcher is a [job_update] of
    another shape. *)
Lemma processing_update_has_no_stage :
  snd (send_processing_update healthy "alice" "job-1" "processing" 0.5
         (Some "half way") "t1" "t2" watched_manager)
  = [(1%nat,
      PDict [("type", PStr "processing_update");
             ("job_id", PStr "job-1");
             ("status", PStr "processing");
             ("progress", PFloat 0.5);
             ("message", PStr "half way");
             ("timestamp", PStr "t1")]);
     (2%nat,
      PDict [("type", PStr "job_update");
             ("job_id", PStr "job-1");
             ("data", PDict [("status", PStr "processing");
                             ("progress", PFloat 0.5);
                             ("message", PStr "half way")]);
             ("timestamp", PStr "t2")])] /\
  dict_get (update_data "job-1" "processing" 0.5 (Some "half way") "t1")
    "stage" = None.
Proof. split; reflexivity. Qed.

(** C8, an instance: the connection 7, new to an empty manager, is
    registered, and registered again once it was accepted; one broadcast
    sends it one message. *)
Lemma register_again_changes_nothing_witness :
  accept healthy 7%nat = None /\
  accept accepted_before 7%nat = Some (Exn "RuntimeError" "websocket.accept") /\
  (let cm1 := fst (connect healthy 7%nat None ConnectionManager.init) in
   let cm2 := fst (connect accepted_before 7%nat None cm1) in
   active_connections cm2 = [7%nat] /\
   copies 7%nat (snd (broadcast healthy (PStr "event") cm2)) = 1%nat).
Proof.
  assert (Hacc : accept healthy 7%nat = None) by reflexivity.
  assert (Hrej : accept accepted_before 7%nat
                 = Some (Exn "RuntimeError" "websocket.accept"))
    by reflexivity.
  split; [exact Hacc |]. split; [exact Hrej |].
  destruct (register_again_changes_nothing healthy accepted_before healthy
              7%nat None ConnectionManager.init (PStr "event") PNone "job-1"
              "t1" WebSocketManager.init _ Hacc Hrej)
    as [(_ & _ & Hlist & _ & _ & Hone) _].
  cbn zeta. split; [exact Hlist |].
  exact (proj2 (Hone eq_refl eq_refl)).
Defined.

End FanOutExamples.

(** ** The text processor *)

Section TextProperties.

Import TextProcessor.

Lemma dict_get_set (d : dict) (k k' : string) (v : pyvalue) :
  dict_get (dict_set d k v) k'
  = if String.eqb k k' then Some v else dict_get d k'.
Proof.
  induction d as [| [k0 v0] d IH]; cbn [dict_set dict_get].
  - destruct (String.eqb k k'); reflexivity.
  - destruct (String.eqb_spec k0 k) as [-> | Hne]; cbn [dict_get].
    + destruct (String.eqb k k'); reflexivity.
    + rewrite IH. destruct (String.eqb_spec k0 k') as [-> | Hne'].
      * destruct (String.eqb_spec k k'); [congruence | reflexivity].
      * reflexivity.
Qed.

Lemma process_text_unfold (L : Libs) (text : string)
    (options : option dict) (now : string) :
  process_text L text options now
  = Returned
      (match snd (process_text_try L text (options_read options)
                    (initial_results text now)) with
       | None =>
           dict_set
             (fst (process_text_try L text (options_read options)
                     (initial_results text now)))
             "success" (PBool true)
       | Some e =>
           dict_update
             (fst (process_text_try L text (options_read options)
                     (initial_results text now)))
             [("success", PBool false); ("error", PStr (exn_str e))]
       end).
Proof.
  unfold process_text, options_read, initial_results.
  destruct options as [o |];
    match goal with
    | |- context [process_text_try ?a ?b ?c ?d] =>
        destruct (process_text_try a b c d) as [r [e |]]
    end; reflexivity.
Qed.

(** An exception of sentence splitting cuts the body of [try] short. *)
Lemma process_text_try_no_sentences (L : Libs) (text : string)
    (options results : dict) (e : exn) :
  sent_tokenize L (clean_text L text) = Raised e ->
  snd (process_text_try L text options results) = Some e.
Proof.
  intros H. unfold process_text_try, extract_sentences. rewrite H.
  reflexivity.
Qed.

(** So does an exception of the tokenization. *)
Lemma process_text_try_no_tokens (L : Libs) (text : string)
    (options results : dict) (sentences : list string) (e : exn) :
  extract_sentences L (clean_text L text) = Returned sentences ->
  tokenize_text L (clean_text L text) = Raised e ->
  snd (process_text_try L text options results) = Some e.
Proof.
  intros Hs Ht. unfold process_text_try. rewrite Hs, Ht. reflexivity.
Qed.

(** So does an exception of a classification that was asked for. *)
Lemma process_text_try_no_classification (L : Libs) (text : string)
    (options results : dict) (sentences tokens : list string) (e : exn) :
  extract_sentences L (clean_text L text) = Returned sentences ->
  tokenize_text L (clean_text L text) = Returned tokens ->
  option_on options "classify_text" = true ->
  classify_text L (clean_text L text)
    (dict_get_default options "categories" PNone) = Raised e ->
  snd (process_text_try L text options results) = Some e.
Proof.
  intros Hs Ht Hon Hc. unfold process_text_try.
  rewrite Hs, Ht, Hon, Hc. reflexivity.
Qed.

(** So does an exception of a summary that was asked for. *)
Lemma process_text_try_no_summary (L : Libs) (text : string)
    (options results : dict) (sentences tokens : list string) (e : exn) :
  extract_sentences L (clean_text L text) = Returned sentences ->
  tokenize_text L (clean_text L text) = Returned tokens ->
  (option_on options "classify_text" = false \/
   exists c, classify_text L (clean_text L text)
               (dict_get_default options "categories" PNone) = Returned c) ->
  option_on options "generate_summary" = true ->
  generate_summary L (clean_text L text)
    (dict_get_default options "summary_max_length" (PInt 500)) = Raised e ->
  snd (process_text_try L text options results) = Some e.
Proof.
  intros Hs Ht Hc Hon Hg. unfold process_text_try.
  rewrite Hs, Ht, Hon, Hg.
  destruct Hc as [-> | [c ->]]; [reflexivity |].
  destruct (option_on options "classify_text"); reflexivity.
Qed.

(** When none of the four raises, the body runs to its end. *)
Lemma process_text_try_completes (L : Libs) (text : string)
    (options results : dict) (sentences tokens : list string) :
  extract_sentences L (clean_text L text) = Returned sentences ->
  tokenize_text L (clean_text L text) = Returned tokens ->
  (option_on options "classify_text" = false \/
   exists c, classify_text L (clean_text L text)
               (dict_get_default options "categories" PNone) = Returned c) ->
  (option_on options "generate_summary" = false \/
   exists summary,
     generate_summary L (clean_text L text)
       (dict_get_default options "summary_max_length" (PInt 500))
     = Returned summary) ->
  snd (process_text_try L text options results) = None.
Proof.
  intros Hs Ht Hc Hg. unfold process_text_try. rewrite Hs, Ht.
  destruct Hc as [-> | [c ->]], Hg as [-> | [summary ->]];
    destruct (option_on options "classify_text"),
      (option_on options "generate_summary"); reflexivity.
Qed.

(** The body of [try] writes no [error]. *)
Lemma process_text_try_no_error (L : Libs) (text : string)
    (options : dict) (now : string) :
  dict_get (fst (process_text_try L text options (initial_results text now)))
    "error" = None.
Proof.
  unfold process_text_try, initial_results.
  destruct (extract_sentences L (clean_text L text)); [| reflexivity].
  destruct (tokenize_text L (clean_text L text)); [| reflexivity].
  destruct (classify_text L (clean_text L text)
              (dict_get_default options "categories" PNone)),
    (generate_summary L (clean_text L text)
       (dict_get_default options "summary_max_length" (PInt 500)));
    destruct (option_on options "calculate_readability"),
      (option_on options "extract_entities"),
      (option_on options "extract_keywords"),
      (option_on options "classify_text"),
      (option_on options "generate_summary"); reflexivity.
Qed.

(** C10: [process_text] never raises.  For every text, every options
    dictionary (or none) and whatever the libraries do, it returns a
    dictionary with a [success] key.  When a step of the body of its [try]
    raises an exception [e], [success] is False and [error] is [str(e)]:
    so it is when the splitting into sentences raises, when it returns and
    the tokenization raises, when both return and the classification, if
    asked for, raises, and when all these return and the summary, if asked
    for, raises.  When none of them raises, [success] is True and there is
    no [error].  (The other analyses keep their exceptions to
    themselves.) *)
Theorem process_text_never_raises (L : Libs) (text : string)
    (options : option dict) (now : string) :
  let cleaned := clean_text L text in
  let opts := options_read options in
  let classified :=
    classify_text L cleaned (dict_get_default opts "categories" PNone) in
  let summarized :=
    generate_summary L cleaned
      (dict_get_default opts "summary_max_length" (PInt 500)) in
  exists results,
    process_text L text options now = Returned results /\
    (exists b, dict_get results "success" = Some (PBool b)) /\
    (forall e,
        snd (process_text_try L text opts (initial_results text now))
        = Some e ->
        dict_get results "success" = Some (PBool false) /\
        dict_get results "error" = Some (PStr (exn_str e))) /\
    (snd (process_text_try L text opts (initial_results text now)) = None ->
     dict_get results "success" = Some (PBool true)) /\
    (forall e,
        sent_tokenize L cleaned = Raised e ->
        dict_get results "success" = Some (PBool false) /\
        dict_get results "error" = Some (PStr (exn_str e))) /\
    (forall e,
        extract_sentences L cleaned = Raised e ->
        dict_get results "success" = Some (PBool false) /\
        dict_get results "error" = Some (PStr (exn_str e))) /\
    (forall sentences,
        extract_sentences L cleaned = Returned sentences ->
        (forall e,
            word_tokenize L (lower cleaned) = Raised e ->
            dict_get results "success" = Some (PBool false) /\
            dict_get results "error" = Some (PStr (exn_str e))) /\
        (forall e,
            tokenize_text L cleaned = Raised e ->
            dict_get results "success" = Some (PBool false) /\
            dict_get results "error" = Some (PStr (exn_str e))) /\
        forall tokens,
          tokenize_text L cleaned = Returned tokens ->
          (forall e,
              option_on opts "classify_text" = true ->
              classified = Raised e ->
              dict_get results "success" = Some (PBool false) /\
              dict_get results "error" = Some (PStr (exn_str e))) /\
          ((option_on opts "classify_text" = false \/
            exists c, classified = Returned c) ->
           (forall e,
               option_on opts "generate_summary" = true ->
               summarized = Raised e ->
               dict_get results "success" = Some (PBool false) /\
               dict_get results "error" = Some (PStr (exn_str e))) /\
           ((option_on opts "generate_summary" = false \/
             exists summary, summarized = Returned summary) ->
            dict_get results "success" = Some (PBool true) /\
            dict_get results "error" = None))).
Proof.
  cbn zeta. rewrite process_text_unfold.
  set (body := process_text_try L text (options_read options)
                 (initial_results text now)).
  assert (Hraised : forall e, snd body = Some e ->
    dict_get (match snd body with
              | None => dict_set (fst body) "success" (PBool true)
              | Some e =>
                  dict_update (fst body)
                    [("success", PBool false); ("error", PStr (exn_str e))]
              end) "success" = Some (PBool false) /\
    dict_get (match snd body with
              | None => dict_set (fst body) "success" (PBool true)
              | Some e =>
                  dict_update (fst body)
                    [("success", PBool false); ("error", PStr (exn_str e))]
              end) "error" = Some (PStr (exn_str e))).
  { intros e ->. unfold dict_update. cbn [fold_left fst snd].
    rewrite !dict_get_set. split; reflexivity. }
  assert (Hdone : snd body = None ->
    dict_get (match snd body with
              | None => dict_set (fst body) "success" (PBool true)
              | Some e =>
                  dict_update (fst body)
                    [("success", PBool false); ("error", PStr (exn_str e))]
              end) "success" = Some (PBool true) /\
    dict_get (match snd body with
              | None => dict_set (fst body) "success" (PBool true)
              | Some e =>
                  dict_update (fst body)
                    [("success", PBool false); ("error", PStr (exn_str e))]
              end) "error" = None).
  { intros ->. rewrite !dict_get_set. split; [reflexivity |].
    apply process_text_try_no_error. }
  eexists. split; [reflexivity |].
  split; [| split; [| split; [| split; [| split]]]].
  - destruct (snd body) as [e |] eqn:Hbody.
    + exists false. unfold dict_update. cbn [fold_left fst snd].
      rewrite !dict_get_set. reflexivity.
    + exists true. rewrite dict_get_set. reflexivity.
  - exact Hraised.
  - intros Hnone. apply Hdone. exact Hnone.
  - intros e He. apply Hraised.
    exact (process_text_try_no_sentences L text _ _ e He).
  - intros e He. apply Hraised. unfold body, process_text_try.
    rewrite He. reflexivity.
  - intros sentences Hs. split; [| split].
    + intros e He. apply Hraised.
      apply (process_text_try_no_tokens L text _ _ sentences e Hs).
      unfold tokenize_text. rewrite He. reflexivity.
    + intros e He. apply Hraised.
      exact (process_text_try_no_tokens L text _ _ sentences e Hs He).
    + intros tokens Ht. split.
      * intros e Hon He. apply Hraised.
        exact (process_text_try_no_classification L text _ _ sentences
                 tokens e Hs Ht Hon He).
      * intros Hc. split.
        -- intros e Hon He. apply Hraised.
           exact (process_text_try_no_summary L text _ _ sentences tokens e
                    Hs Ht Hc Hon He).
        -- intros Hg. apply Hdone.
           exact (process_text_try_completes L text _ _ sentences tokens
                    Hs Ht Hc Hg).
Qed.

Lemma clean_text_empty (L : Libs) :
  quiet_on_empty L -> clean_text L "" = "".
Proof.
  intros [Hre _]. unfold clean_text.
  rewrite (Hre pat_whitespace) by (cbn; tauto). cbn [strip lstrip rstrip].
  rewrite (Hre pat_special) by (cbn; tauto).
  rewrite (Hre pat_url) by (cbn; tauto).
  apply Hre. cbn; tauto.
Qed.

Lemma extract_sentences_empty (L : Libs) :
  quiet_on_empty L -> extract_sentences L "" = Returned [].
Proof.
  intros (_ & Hsent & _). unfold extract_sentences. rewrite Hsent.
  reflexivity.
Qed.

Lemma tokenize_text_empty (L : Libs) :
  quiet_on_empty L -> tokenize_text L "" = Returned [].
Proof.
  intros (_ & _ & Hword). unfold tokenize_text. cbn [lower].
  rewrite Hword. reflexivity.
Qed.

Lemma generate_summary_empty (L : Libs) (max_length : pyvalue) :
  quiet_on_empty L -> generate_summary L "" max_length = Returned "".
Proof.
  intros HL. unfold generate_summary, generate_summary_try.
  rewrite (extract_sentences_empty L HL). reflexivity.
Qed.

Lemma classify_text_typed (L : Libs) (text : string) (v : pyvalue) :
  categories_typed v = true ->
  exists categories,
    classify_text L text v = Returned (classify text categories).
Proof.
  unfold categories_typed, classify_text. intros H.
  destruct (truthy v) eqn:Hv; cbn [negb orb] in H.
  - destruct v as [| | | | | l |]; try discriminate H.
    destruct (as_strings l) as [cs |]; [| discriminate H].
    exists cs. reflexivity.
  - exists default_categories. reflexivity.
Qed.

(** C9 (as the code has it): an empty text is processed without error
    and without any warning flag.  With libraries that find nothing in an
    empty text and a [categories] option of the expected type,
    [process_text] returns a bundle with [success] True, no [error], an
    empty cleaned text and counts of zero; the bundle has no
    [lowQualityWarning] entry: its keys are among those of
    [result_keys]. *)
Theorem empty_text_succeeds_without_warning (L : Libs)
    (options : option dict) (now : string) :
  quiet_on_empty L ->
  categories_typed
    (dict_get_default (options_read options) "categories" PNone) = true ->
  exists results,
    process_text L "" options now = Returned results /\
    dict_get results "success" = Some (PBool true) /\
    dict_get results "error" = None /\
    dict_get results "lowQualityWarning" = None /\
    (forall k, In k (dict_keys results) -> In k result_keys) /\
    dict_get results "cleaned_text" = Some (PStr "") /\
    dict_get results "sentence_count" = Some (PInt 0) /\
    dict_get results "word_count" = Some (PInt 0) /\
    dict_get results "avg_sentence_length" = Some (PInt 0).
Proof.
  intros HL Hcat.
  destruct (classify_text_typed L "" _ Hcat) as [cs Hcs].
  unfold process_text. fold (options_read options).
  unfold process_text_try.
  rewrite (clean_text_empty L HL), (extract_sentences_empty L HL),
    (tokenize_text_empty L HL), Hcs, (generate_summary_empty L _ HL).
  destruct (option_on (options_read options) "calculate_readability"),
    (option_on (options_read options) "extract_entities"),
    (option_on (options_read options) "extract_keywords"),
    (option_on (options_read options) "classify_text"),
    (option_on (options_read options) "generate_summary");
    cbn [obind];
    (eexists; split; [reflexivity |];
     repeat (split; [reflexivity |]);
     split; [cbn; intuition |];
     repeat split).
Qed.

End TextProperties.

Section TextExamples.

Import TextProcessor.

Lemma plain_libs_quiet : quiet_on_empty plain_libs.
Proof. repeat split. Qed.

(** C9, witness: the sample libraries, no options. *)
Lemma empty_text_succeeds_without_warning_witness :
  quiet_on_empty plain_libs /\
  categories_typed (dict_get_default (options_read None) "categories" PNone)
  = true /\
  exists results,
    process_text plain_libs "" None "t0" = Returned results /\
    dict_get results "success" = Some (PBool true).
Proof.
  assert (Hcat : categories_typed
                   (dict_get_default (options_read None) "categories" PNone)
                 = true) by reflexivity.
  split; [exact plain_libs_quiet |]. split; [exact Hcat |].
  destruct (empty_text_succeeds_without_warning plain_libs None "t0"
              plain_libs_quiet Hcat)
    as (results & Hres & Hsuccess & _).
  exists results. split; [exact Hres | exact Hsuccess].
Defined.

(** C9, as stated, fails: the empty text is processed with success, and
    the bundle has no [lowQualityWarning] entry; these are all its
    keys. *)
Lemma empty_text_bundle_has_no_warning_flag :
  exists results,
    process_text plain_libs "" None "t0" = Returned results /\
    dict_get results "success" = Some (PBool true) /\
    dict_get results "lowQualityWarning" = None /\
    dict_keys results
    = ["processed_at"; "original_length"; "cleaned_text"; "cleaned_length";
       "sentence_count"; "word_count"; "unique_words";
       "avg_sentence_length"; "readability"; "entities"; "keywords";
       "classification"; "summary"; "success"].
Proof. eexists. split; [reflexivity |]. repeat split. Qed.

(** Without the tokenizer data of NLTK the text [abc] gives a result with
    [success] False and the message of the error. *)
Example process_text_without_tokenizer_data :
  process_text no_punkt_libs "abc" None "t0"
  = Returned [("processed_at", PStr "t0");
              ("original_length", PInt 3);
              ("cleaned_text", PStr "abc");
              ("cleaned_length", PInt 3);
              ("success", PBool false);
              ("error", PStr "Resource punkt not found")].
Proof. reflexivity. Qed.

(** Beyond ASCII: the word [cafe] written with its last letter accented
    (the character 233) is alphabetic, the lower case of the accented
    capital 201 is the character 233, and [strip] takes a no-break space
    (the character 160) away. *)
Example characters_of_the_latin_supplement :
  isalpha ("caf" ++ String "233"%char "") = true /\
  lower (String "201"%char "") = String "233"%char "" /\
  isalpha "x2" = false /\
  strip (String "160"%char "a ") = "a".
Proof. repeat split. Qed.

End TextExamples.

(** ** More on the fan-out registry *)

Section RegistryProperties.

Import ConnectionManager WebSocketManager.

Lemma remove_first_count (c ws : WebSocket) (l : list WebSocket) :
  length (List.filter (Nat.eqb c) (remove_first ws l))
  = if Nat.eqb c ws then pred (length (List.filter (Nat.eqb c) l))
    else length (List.filter (Nat.eqb c) l).
Proof.
  induction l as [| y l IH]; cbn [remove_first List.filter].
  - destruct (Nat.eqb c ws); reflexivity.
  - destruct (Nat.eqb_spec y ws) as [-> | Hy].
    + destruct (Nat.eqb c ws); reflexivity.
    + cbn [List.filter]. destruct (Nat.eqb_spec c y) as [-> | Hc].
      * cbn [length]. rewrite IH.
        destruct (Nat.eqb_spec y ws); [contradiction | reflexivity].
      * exact IH.
Qed.

Lemma remove_first_in (c ws : WebSocket) (l : list WebSocket) :
  c <> ws -> In c l -> In c (remove_first ws l).
Proof.
  intros Hne. induction l as [| y l IH]; cbn [remove_first]; [tauto |].
  destruct (Nat.eqb_spec y ws) as [-> | Hy]; intros [Heq | Hin].
  - congruence.
  - exact Hin.
  - left. exact Heq.
  - right. exact (IH Hin).
Qed.

(** X1: [disconnect] takes away one registration of the connection and
    none of another: the number of times a connection stands in the list
    goes down by one for the connection itself (and stays 0 when it was
    not there), and is unchanged for every other connection.  So a
    connection registered twice is still registered after one
    [disconnect]. *)
Theorem disconnect_removes_one_registration (ws c : WebSocket)
    (cm : ConnectionManager.t) :
  registrations c (disconnect ws cm)
  = if Nat.eqb c ws then pred (registrations c cm) else registrations c cm.
Proof. unfold registrations, disconnect. cbn. apply remove_first_count. Qed.

Lemma filter_idempotent (f : WebSocket -> bool) (l : list WebSocket) :
  List.filter f (List.filter f l) = List.filter f l.
Proof.
  induction l as [| x l IH]; [reflexivity |].
  cbn [List.filter]. destruct (f x) eqn:Hx; [| exact IH].
  cbn [List.filter]. rewrite Hx, IH. reflexivity.
Qed.

(** X2: a broadcast leaves a list on which the same broadcast removes
    nothing: repeated at once with the same message, it reaches the same
    connections again and the list stays as the first broadcast left
    it. *)
Theorem broadcast_again_removes_nothing (tr : Transport)
    (message : pyvalue) (cm : ConnectionManager.t) :
  let cm1 := fst (broadcast tr message cm) in
  snd (broadcast tr message cm1) = snd (broadcast tr message cm) /\
  active_connections (fst (broadcast tr message cm1))
  = active_connections cm1.
Proof.
  cbn zeta.
  destruct (broadcast_spec tr message (fst (broadcast tr message cm)))
    as [-> ->].
  destruct (broadcast_spec tr message cm) as [-> ->].
  rewrite filter_idempotent. split; reflexivity.
Qed.

Lemma disconnect_keeps_metadata_registered (ws : WebSocket)
    (cm : ConnectionManager.t) :
  metadata_registered cm -> metadata_registered (disconnect ws cm).
Proof.
  intros Hinv c md. unfold disconnect. cbn [metadata active_connections].
  destruct (Nat.eq_dec c ws) as [-> | Hne].
  - rewrite lookup_delete_eq. discriminate.
  - rewrite lookup_delete_ne by congruence. intros Hc.
    apply remove_first_in; [exact Hne | exact (Hinv c md Hc)].
Qed.

Lemma cleanup_keeps_metadata_registered (ds : list WebSocket)
    (cm : ConnectionManager.t) :
  metadata_registered cm ->
  metadata_registered (fold_left (fun acc c => disconnect c acc) ds cm).
Proof.
  revert cm. induction ds as [| d ds IH]; intros cm Hinv; [exact Hinv |].
  cbn [fold_left]. apply IH, disconnect_keeps_metadata_registered, Hinv.
Qed.

(** X3: the managers keep metadata only for connections of their list.
    The property holds for a new manager and is kept by [connect]
    (whether [accept()] returns or raises), by [disconnect], by
    [broadcast] and by [send_personal_message]. *)
Theorem metadata_only_for_registered (tr : Transport) (ws : WebSocket)
    (md : option dict) (message : pyvalue) (cm : ConnectionManager.t) :
  metadata_registered cm ->
  metadata_registered ConnectionManager.init /\
  metadata_registered (fst (connect tr ws md cm)) /\
  metadata_registered (disconnect ws cm) /\
  metadata_registered (fst (broadcast tr message cm)) /\
  metadata_registered (fst (send_personal_message tr message ws cm)).
Proof.
  intros Hinv. split; [| split; [| split; [| split]]].
  - intros c d. unfold ConnectionManager.init. cbn.
    rewrite lookup_empty. discriminate.
  - unfold connect. destruct (accept tr ws); [exact Hinv |].
    cbn [fst]. intros c d. cbn [metadata active_connections].
    intros Hc. apply in_or_app.
    destruct (Nat.eq_dec c ws) as [-> | Hne]; [right; left; reflexivity |].
    left. apply (Hinv c d).
    destruct md as [[| kv o] |]; try exact Hc.
    rewrite lookup_insert_ne in Hc by congruence. exact Hc.
  - apply disconnect_keeps_metadata_registered, Hinv.
  - unfold broadcast.
    destruct (broadcast_loop tr message (active_connections cm))
      as [sent disconnected].
    cbn [fst]. apply cleanup_keeps_metadata_registered, Hinv.
  - unfold send_personal_message.
    destruct (is_connected (application_state tr ws)); [| exact Hinv].
    destruct (send_text tr ws message); [| exact Hinv].
    cbn [fst]. apply disconnect_keeps_metadata_registered, Hinv.
Qed.

End RegistryProperties.

Section ManagerProperties.

Import ConnectionManager WebSocketManager.

Lemma disconnect_in_registered (ws c : WebSocket) (key : string)
    (registry : gmap string ConnectionManager.t) :
  registered (disconnect_in ws key registry) key c
  = if Nat.eqb c ws then pred (registered registry key c)
    else registered registry key c.
Proof.
  unfold disconnect_in, registered.
  destruct (registry !! key) as [cm |] eqn:Hkey.
  - assert (Hcount : registrations c (disconnect ws cm)
                     = if Nat.eqb c ws then pred (registrations c cm)
                       else registrations c cm)
      by apply remove_first_count.
    destruct (active_connections (disconnect ws cm)) eqn:Hleft.
    + rewrite lookup_delete_eq. rewrite <- Hcount.
      unfold registrations. rewrite Hleft. reflexivity.
    + rewrite lookup_insert_eq. exact Hcount.
  - rewrite Hkey. destruct (Nat.eqb c ws); reflexivity.
Qed.

Lemma disconnect_in_other (ws : WebSocket) (key key' : string)
    (registry : gmap string ConnectionManager.t) :
  key <> key' -> disconnect_in ws key registry !! key' = registry !! key'.
Proof.
  intros Hne. unfold disconnect_in.
  destruct (registry !! key) as [cm |]; [| reflexivity].
  destruct (active_connections (disconnect ws cm)).
  - apply lookup_delete_ne. exact Hne.
  - apply lookup_insert_ne. exact Hne.
Qed.

Lemma connect_in_registered_other (tr : Transport) (ws c : WebSocket)
    (md : option dict) (key : string)
    (registry : gmap string ConnectionManager.t) :
  accept tr ws = None -> c <> ws ->
  registered (fst (connect_in tr ws md key registry)) key c
  = registered registry key c.
Proof.
  intros Hacc Hne. unfold connect_in, registered.
  set (cm := match registry !! key with
             | Some cm => cm
             | None => ConnectionManager.init
             end).
  destruct (connect_returns tr ws md cm Hacc) as [Hlist _].
  destruct (connect tr ws md cm) as [cm' r]. cbn [fst] in *.
  rewrite lookup_insert_eq. unfold registrations. rewrite Hlist.
  rewrite List.filter_app, List.length_app. cbn [List.filter].
  destruct (Nat.eqb_spec c ws); [contradiction |]. cbn [length].
  rewrite Nat.add_0_r. subst cm. destruct (registry !! key); reflexivity.
Qed.

Lemma connect_in_other (tr : Transport) (ws : WebSocket) (md : option dict)
    (key key' : string) (registry : gmap string ConnectionManager.t) :
  key <> key' ->
  fst (connect_in tr ws md key registry) !! key' = registry !! key'.
Proof.
  intros Hne. unfold connect_in.
  destruct (connect tr ws md _) as [cm' r]. cbn [fst].
  apply lookup_insert_ne. exact Hne.
Qed.

(** X4: joining a room and leaving it again leaves every connection
    registered in the room as often as before, the connection that joined
    included, and leaves the other rooms untouched. *)
Theorem leave_room_undoes_join_room (tr : Transport) (ws : WebSocket)
    (room_id : string) (m : WebSocketManager.t) :
  accept tr ws = None ->
  let m' := leave_room ws room_id (fst (join_room tr ws room_id m)) in
  (forall c, registered (room_connections m') room_id c
             = registered (room_connections m) room_id c) /\
  (forall other, room_id <> other ->
                 room_connections m' !! other = room_connections m !! other).
Proof.
  intros Hacc. unfold leave_room, join_room.
  destruct (connect_in tr ws None room_id (room_connections m))
    as [r res] eqn:Hconn.
  cbn [fst room_connections set_room_connections].
  assert (Hr : r = fst (connect_in tr ws None room_id (room_connections m)))
    by (rewrite Hconn; reflexivity).
  split.
  - intros c. rewrite disconnect_in_registered, Hr.
    destruct (Nat.eqb_spec c ws) as [-> | Hne].
    + rewrite connect_in_registered by exact Hacc. reflexivity.
    + apply connect_in_registered_other; assumption.
  - intros other Hne. rewrite disconnect_in_other by exact Hne.
    rewrite Hr. apply connect_in_other. exact Hne.
Qed.

End ManagerProperties.

Section UserChannelProperties.

Import ConnectionManager WebSocketManager.

Lemma connect_in_returns (tr : Transport) (ws : WebSocket)
    (md : option dict) (key : string)
    (registry : gmap string ConnectionManager.t) :
  accept tr ws = None ->
  exists cm',
    connect_in tr ws md key registry = (<[key := cm']> registry, Returned tt)
    /\ active_connections cm' = (members registry key ++ [ws])%list.
Proof.
  intros Hacc. unfold connect_in, connect, members. rewrite Hacc.
  eexists. split; [reflexivity |]. cbn [active_connections].
  destruct (registry !! key); reflexivity.
Qed.

(** X5: when [accept()] returns, [connect_user] maps the connection to the
    user, records its heartbeat, and sends the confirmation to every
    connection of the user that can be reached, the older ones as well as
    the new one, in the order of the list. *)
Theorem connect_user_confirms_to_all (tr : Transport) (ws : WebSocket)
    (user_id : string) (md : option dict) (now : string)
    (m : WebSocketManager.t) :
  accept tr ws = None ->
  let res := connect_user tr ws user_id md now m in
  snd res = Returned tt /\
  connection_users (fst (fst res)) !! ws = Some user_id /\
  ws ∈ heartbeat_tasks (fst (fst res)) /\
  snd (fst res)
  = map (fun c => (c, connection_message now))
      (List.filter (send_succeeds tr (connection_message now))
         (members (user_connections m) user_id ++ [ws])).
Proof.
  intros Hacc. unfold connect_user.
  destruct (connect_in_returns tr ws md user_id (user_connections m) Hacc)
    as (cm' & -> & Hlist).
  fold (connection_message now). unfold send_to_user.
  cbn [user_connections set_user_connections set_connection_users
       set_heartbeat_tasks].
  pose proof (broadcast_in_sent tr (connection_message now) user_id
                (<[user_id := cm']> (user_connections m))) as Hsent.
  destruct (broadcast_in tr (connection_message now) user_id
              (<[user_id := cm']> (user_connections m))) as [u sent].
  cbn [fst snd] in *. cbn.
  split; [reflexivity |]. split; [apply lookup_insert_eq |].
  split; [apply elem_of_union; left; apply elem_of_singleton; reflexivity |].
  rewrite Hsent. unfold receivers. rewrite lookup_insert_eq, Hlist.
  reflexivity.
Qed.

(** X6: when [accept()] raises, [connect_user] raises the same exception
    and sends nothing, maps no connection and starts no heartbeat; but for
    a user that had no entry it leaves an entry with an empty list, so the
    user is counted by [total_users] while [is_user_connected] is false.
    For a user with an entry the registry is unchanged. *)
Theorem connect_user_refused_leaves_empty_entry (tr : Transport)
    (ws : WebSocket) (user_id : string) (md : option dict) (now : string)
    (m : WebSocketManager.t) (e : exn) :
  accept tr ws = Some e ->
  let res := connect_user tr ws user_id md now m in
  snd res = Raised e /\ snd (fst res) = [] /\
  connection_users (fst (fst res)) = connection_users m /\
  heartbeat_tasks (fst (fst res)) = heartbeat_tasks m /\
  (user_connections m !! user_id = None ->
   user_connections (fst (fst res)) !! user_id
   = Some ConnectionManager.init /\
   is_user_connected user_id (fst (fst res)) = false /\
   total_users (fst (fst res)) = S (total_users m)) /\
  (is_Some (user_connections m !! user_id) -> fst (fst res) = m).
Proof.
  intros Hacc. unfold connect_user, connect_in, connect. rewrite Hacc.
  cbn. split; [reflexivity |]. split; [reflexivity |].
  split; [reflexivity |]. split; [reflexivity |]. split.
  - intros Hnone. rewrite Hnone. split; [apply lookup_insert_eq |]. split.
    + unfold is_user_connected. cbn. rewrite lookup_insert_eq. reflexivity.
    + unfold total_users. cbn. apply map_size_insert_None. exact Hnone.
  - intros [cm Hcm]. rewrite Hcm. rewrite insert_id by exact Hcm.
    destruct m. reflexivity.
Qed.

Lemma remove_first_filter_single (f : WebSocket -> bool) (ws : WebSocket) :
  remove_first ws (List.filter f [ws]) = [].
Proof.
  cbn. destruct (f ws); cbn; [rewrite Nat.eqb_refl |]; reflexivity.
Qed.

(** X7: [disconnect_user] undoes [connect_user].  For a connection and a
    user that the registry does not know yet, connecting (with an
    [accept()] that returns) and disconnecting gives the registry back as
    it was, whether or not the confirmation could be sent. *)
Theorem disconnect_user_undoes_connect_user (tr : Transport)
    (ws : WebSocket) (user_id : string) (md : option dict) (now : string)
    (m : WebSocketManager.t) :
  accept tr ws = None ->
  user_connections m !! user_id = None ->
  connection_users m !! ws = None ->
  ws ∉ heartbeat_tasks m ->
  disconnect_user ws (fst (fst (connect_user tr ws user_id md now m))) = m.
Proof.
  intros Hacc Huser Hws Hbeat. unfold connect_user.
  destruct (connect_in_returns tr ws md user_id (user_connections m) Hacc)
    as (cm' & -> & Hlist).
  unfold members in Hlist. rewrite Huser in Hlist. cbn in Hlist.
  unfold send_to_user, broadcast_in.
  cbn [user_connections set_user_connections set_connection_users
       set_heartbeat_tasks].
  rewrite lookup_insert_eq.
  pose proof (proj2 (broadcast_spec tr (PDict
     [("type", PStr "connection"); ("status", PStr "connected");
      ("timestamp", PStr now)]) cm')) as Hleft.
  destruct (broadcast tr _ cm') as [cm2 sent]. cbn [fst snd] in *.
  rewrite Hlist in Hleft.
  unfold disconnect_user.
  cbn [connection_users user_connections heartbeat_tasks
       set_user_connections set_connection_users set_heartbeat_tasks].
  rewrite lookup_insert_eq.
  cbn [connection_users user_connections heartbeat_tasks
       set_user_connections set_connection_users set_heartbeat_tasks
       room_connections job_connections chat_connections].
  unfold disconnect_in. rewrite lookup_insert_eq.
  unfold disconnect at 1. cbn [active_connections].
  rewrite Hleft, remove_first_filter_single.
  rewrite insert_insert_eq.
  rewrite (delete_insert_id (user_connections m) user_id) by exact Huser.
  rewrite (delete_insert_id (connection_users m) ws) by exact Hws.
  assert (Hset : ({[ws]} ∪ heartbeat_tasks m) ∖ {[ws]} = heartbeat_tasks m).
  { apply set_eq. intros x.
    rewrite elem_of_difference, elem_of_union, elem_of_singleton.
    split.
    - intros [[-> | Hx] Hne]; [contradiction | exact Hx].
    - intros Hx. split; [right; exact Hx |]. intros ->. contradiction. }
  rewrite Hset. destruct m. reflexivity.
Qed.

(** X8: [disconnect_user] is idempotent: a second call for the same
    connection changes nothing more. *)
Theorem disconnect_user_twice (ws : WebSocket) (m : WebSocketManager.t) :
  disconnect_user ws (disconnect_user ws m) = disconnect_user ws m.
Proof.
  unfold disconnect_user at 2 3.
  destruct (connection_users m !! ws) as [user_id |] eqn:Hws.
  - unfold disconnect_user.
    cbn [connection_users set_connection_users].
    rewrite lookup_delete_eq. reflexivity.
  - unfold disconnect_user. rewrite Hws. reflexivity.
Qed.

Lemma broadcast_in_dom (tr : Transport) (message : pyvalue)
    (key key' : string) (registry : gmap string ConnectionManager.t) :
  is_Some (fst (broadcast_in tr message key registry) !! key')
  <-> is_Some (registry !! key').
Proof.
  unfold broadcast_in. destruct (registry !! key) as [cm |] eqn:Hkey;
    [| reflexivity].
  destruct (broadcast tr message cm) as [cm' sent]. cbn [fst].
  destruct (decide (key = key')) as [<- | Hne].
  - rewrite lookup_insert_eq, Hkey. split; intros _; eauto.
  - rewrite lookup_insert_ne by exact Hne. reflexivity.
Qed.

(** X9: [send_to_user] touches the list of that user only.  The job, room
    and chat registries, the map from connections to users and the
    heartbeats are unchanged, and so are the lists of the other users;
    and no entry is removed: a user whose last connection failed keeps an
    entry, with an empty list, and [total_users] does not change. *)
Theorem send_to_user_changes_one_list (tr : Transport) (user_id : string)
    (data : pyvalue) (m : WebSocketManager.t) :
  let m' := fst (send_to_user tr user_id data m) in
  job_connections m' = job_connections m /\
  room_connections m' = room_connections m /\
  chat_connections m' = chat_connections m /\
  connection_users m' = connection_users m /\
  heartbeat_tasks m' = heartbeat_tasks m /\
  (forall other, user_id <> other ->
                 user_connections m' !! other = user_connections m !! other) /\
  (forall u, is_Some (user_connections m' !! u)
             <-> is_Some (user_connections m !! u)) /\
  total_users m' = total_users m.
Proof.
  cbn zeta. unfold send_to_user.
  pose proof (fun u => broadcast_in_dom tr data user_id u (user_connections m))
    as Hdom.
  assert (Hother : forall other, user_id <> other ->
    fst (broadcast_in tr data user_id (user_connections m)) !! other
    = user_connections m !! other).
  { intros other Hne. unfold broadcast_in.
    destruct (user_connections m !! user_id) as [cm |]; [| reflexivity].
    destruct (broadcast tr data cm) as [cm' sent]. cbn [fst].
    apply lookup_insert_ne. exact Hne. }
  assert (Hsize :
    size (fst (broadcast_in tr data user_id (user_connections m)))
    = size (user_connections m)).
  { unfold broadcast_in.
    destruct (user_connections m !! user_id) as [cm |] eqn:Hcm;
      [| reflexivity].
    destruct (broadcast tr data cm) as [cm' sent]. cbn [fst].
    apply map_size_insert_Some. rewrite Hcm. eauto. }
  destruct (broadcast_in tr data user_id (user_connections m)) as [u sent].
  cbn [fst] in *. cbn. repeat split; try assumption; apply Hdom.
Qed.

End UserChannelProperties.

Section SendToUsers.

Import ConnectionManager WebSocketManager.

Lemma receivers_after_broadcast (tr : Transport) (data : pyvalue)
    (key key' : string) (registry : gmap string ConnectionManager.t) :
  receivers tr (fst (broadcast_in tr data key registry)) key' data
  = receivers tr registry key' data.
Proof.
  unfold broadcast_in, receivers.
  destruct (registry !! key) as [cm |] eqn:Hkey; [| reflexivity].
  pose proof (proj2 (broadcast_spec tr data cm)) as Hleft.
  destruct (broadcast tr data cm) as [cm' sent]. cbn [fst] in *.
  destruct (decide (key = key')) as [<- | Hne].
  - rewrite lookup_insert_eq, Hkey, Hleft. apply filter_idempotent.
  - rewrite lookup_insert_ne by exact Hne. reflexivity.
Qed.

(** X23: [send_to_users] sends the message, user after user in the order
    of the list, to the connections of each user that can be reached, as
    they stood before the call: the removals made for one user take
    nothing from what a later user receives, and a user listed twice
    receives the message twice. *)
Theorem send_to_users_reaches_each_user (tr : Transport)
    (user_ids : list string) (data : pyvalue) (m : WebSocketManager.t) :
  snd (send_to_users tr user_ids data m)
  = concat
      (map (fun user_id =>
              map (fun c => (c, data))
                (receivers tr (user_connections m) user_id data))
         user_ids).
Proof.
  revert m. induction user_ids as [| user_id rest IH]; intros m;
    [reflexivity |].
  cbn [send_to_users map concat].
  destruct (send_to_user_spec tr user_id data m) as [Hsent _].
  assert (Hrecv : forall u,
    receivers tr (user_connections (fst (send_to_user tr user_id data m)))
      u data
    = receivers tr (user_connections m) u data).
  { intros u. unfold send_to_user.
    pose proof (receivers_after_broadcast tr data user_id u
                  (user_connections m)) as H.
    destruct (broadcast_in tr data user_id (user_connections m))
      as [reg sent]. exact H. }
  destruct (send_to_user tr user_id data m) as [m1 sent].
  cbn [fst snd] in *. specialize (IH m1).
  destruct (send_to_users tr rest data m1) as [m2 sent_rest].
  cbn [snd] in *. rewrite Hsent, IH. f_equal. f_equal.
  apply List.map_ext. intros u. rewrite Hrecv. reflexivity.
Qed.

End SendToUsers.

(** ** More on the text processor *)

Section ClassifierProperties.

Import TextProcessor.

Lemma count_from_nonneg (sub : string) (skip : nat) (s : string) :
  0 <= count_from sub skip s.
Proof.
  revert skip. induction s as [| c s IH]; intros skip; cbn [count_from].
  - lia.
  - destruct skip as [| k]; [| apply IH].
    destruct (String.prefix sub (String c s)).
    + specialize (IH (String.length sub - 1)%nat). lia.
    + apply IH.
Qed.

Lemma category_score_nonneg (text_lower category : string) :
  0 <= category_score text_lower category.
Proof.
  unfold category_score.
  assert (H : forall kws acc, 0 <= acc ->
    0 <= fold_left (fun sc kw => sc + str_count text_lower kw) kws acc).
  { induction kws as [| kw kws IH]; intros acc Hacc; [exact Hacc |].
    cbn [fold_left]. apply IH. unfold str_count.
    pose proof (count_from_nonneg kw 0 text_lower). lia. }
  apply H. lia.
Qed.

Lemma set_score_in (c : string) (v : Z) (scores : list (string * Z))
    (x : string * Z) :
  In x (set_score c v scores) -> x = (c, v) \/ In x scores.
Proof.
  induction scores as [| [c0 v0] scores IH]; cbn [set_score].
  - intros [<- | []]. left. reflexivity.
  - destruct (String.eqb_spec c0 c) as [-> | Hne].
    + intros [<- | Hin]; [left; reflexivity | right; right; exact Hin].
    + intros [<- | Hin]; [right; left; reflexivity |].
      destruct (IH Hin) as [-> | Hin']; [left; reflexivity |].
      right. right. exact Hin'.
Qed.

Lemma set_score_has (c : string) (v : Z) (scores : list (string * Z)) :
  exists v', In (c, v') (set_score c v scores).
Proof.
  induction scores as [| [c0 v0] scores [v' IH]]; cbn [set_score].
  - exists v. left. reflexivity.
  - destruct (String.eqb_spec c0 c) as [-> | Hne].
    + exists v. left. reflexivity.
    + exists v'. right. exact IH.
Qed.

Lemma set_score_keeps (c c' : string) (v v' : Z)
    (scores : list (string * Z)) :
  In (c', v') scores -> exists v'', In (c', v'') (set_score c v scores).
Proof.
  induction scores as [| [c0 v0] scores IH]; cbn [set_score]; [intros [] |].
  destruct (String.eqb_spec c0 c) as [-> | Hne].
  - intros [[= <- <-] | Hin].
    + exists v. left. reflexivity.
    + exists v'. right. exact Hin.
  - intros [[= <- <-] | Hin].
    + exists v0. left. reflexivity.
    + destruct (IH Hin) as [v'' H]. exists v''. right. exact H.
Qed.

(** The dictionary [scores] after the loop over the categories: each entry
    holds the score of its category, and each category has an entry. *)
Lemma scores_spec (f : string -> Z) (categories : list string)
    (scores0 : list (string * Z)) :
  (forall x, In x scores0 -> snd x = f (fst x)) ->
  let scores :=
    fold_left (fun scores c => set_score c (f c) scores) categories scores0 in
  (forall x, In x scores ->
     snd x = f (fst x) /\ (In x scores0 \/ In (fst x) categories)) /\
  (forall c, In c categories -> exists v, In (c, v) scores) /\
  (forall c v, In (c, v) scores0 -> exists v', In (c, v') scores).
Proof.
  revert scores0. induction categories as [| c cs IH]; intros scores0 H0.
  - cbn. repeat split; try tauto.
    + apply H0. assumption.
    + intros c v Hin. exists v. exact Hin.
  - cbn [fold_left]. cbn zeta.
    assert (H1 : forall x, In x (set_score c (f c) scores0) ->
                           snd x = f (fst x)).
    { intros x Hx. destruct (set_score_in _ _ _ _ Hx) as [-> | Hx'];
        [reflexivity | apply H0, Hx']. }
    destruct (IH _ H1) as (Ha & Hb & Hc). split; [| split].
    + intros x Hx. destruct (Ha x Hx) as [Hval [Hin | Hin]].
      * split; [exact Hval |].
        destruct (set_score_in _ _ _ _ Hin) as [-> | Hin'].
        -- right. left. reflexivity.
        -- left. exact Hin'.
      * split; [exact Hval |]. right. right. exact Hin.
    + intros c' [<- | Hin].
      * destruct (set_score_has c (f c) scores0) as [v Hv].
        exact (Hc c v Hv).
      * exact (Hb c' Hin).
    + intros c' v Hin.
      destruct (set_score_keeps c c' (f c) v scores0 Hin) as [v'' Hv].
      exact (Hc c' v'' Hv).
Qed.

Lemma first_max_spec (best : string * Z) (scores : list (string * Z)) :
  In (first_max best scores) (best :: scores) /\
  forall x, In x (best :: scores) -> snd x <= snd (first_max best scores).
Proof.
  revert best. induction scores as [| y scores IH]; intros best;
    cbn [first_max].
  - split; [left; reflexivity |]. intros x [<- | []]. lia.
  - destruct (IH (if snd best <? snd y then y else best)) as [Hin Hmax].
    split.
    + destruct Hin as [Heq | Hin]; [| right; right; exact Hin].
      rewrite <- Heq. destruct (snd best <? snd y); [right |]; left;
        reflexivity.
    + intros x Hx.
      assert (Hb : snd best <= snd (if snd best <? snd y then y else best)).
      { destruct (Z.ltb_spec (snd best) (snd y)); lia. }
      assert (Hy : snd y <= snd (if snd best <? snd y then y else best)).
      { destruct (Z.ltb_spec (snd best) (snd y)); lia. }
      pose proof (Hmax _ (or_introl eq_refl)) as Hm.
      destruct Hx as [<- | [<- | Hx]]; [lia | lia |].
      apply Hmax. right. exact Hx.
Qed.

Lemma sum_zero (scores : list (string * Z)) (acc : Z) :
  (forall x, In x scores -> snd x = 0) ->
  fold_left (fun acc x => acc + snd x) scores acc = acc.
Proof.
  revert acc. induction scores as [| y scores IH]; intros acc H;
    [reflexivity |].
  cbn [fold_left]. rewrite IH by (intros x Hx; apply H; right; exact Hx).
  rewrite (H y) by (left; reflexivity). lia.
Qed.

(** X10: for a list of categories that is not empty, the primary category
    of [classify_text] is one of the list and none of the list has a
    greater score; when that score is 0 (no keyword of any listed category
    occurs in the text) the confidence is the integer 0.  The fallback
    [general] is never returned. *)
Theorem classify_returns_a_listed_category (text : string)
    (categories : list string) :
  categories <> [] ->
  exists primary,
    dict_get (classify text categories) "primary_category"
    = Some (PStr primary) /\
    In primary categories /\
    (forall c, In c categories ->
       category_score (lower text) c <= category_score (lower text) primary)
    /\
    (category_score (lower text) primary = 0 ->
     dict_get (classify text categories) "confidence" = Some (PInt 0)).
Proof.
  intros Hne. unfold classify.
  set (f := category_score (lower text)).
  destruct (scores_spec f categories []) as (Ha & Hb & _);
    [intros x [] |]. cbn zeta in Ha, Hb.
  set (scores := fold_left (fun scores c => set_score c (f c) scores)
                   categories []) in *.
  destruct scores as [| x rest] eqn:Hscores.
  - destruct categories as [| c cs]; [congruence |].
    destruct (Hb c (or_introl eq_refl)) as [v []].
  - destruct (first_max_spec x rest) as [Hin Hmax].
    exists (fst (first_max x rest)).
    split; [reflexivity |].
    destruct (Ha _ Hin) as [Hval [[] | Hcat]].
    split; [exact Hcat |]. split.
    + intros c Hc. destruct (Hb c Hc) as [v Hv].
      destruct (Ha _ Hv) as [Hv' _]. cbn [fst snd] in Hv'.
      pose proof (Hmax _ Hv) as Hle. cbn [fst snd] in Hle.
      unfold f in *. lia.
    + intros Hzero.
      assert (Hall : forall y, In y (x :: rest) -> snd y = 0).
      { intros y Hy. pose proof (Hmax y Hy) as Hle.
        destruct (Ha y Hy) as [Hy' _].
        pose proof (category_score_nonneg (lower text) (fst y)) as Hpos.
        unfold f in *. lia. }
      rewrite (sum_zero (x :: rest) 0 Hall). reflexivity.
Qed.

End ClassifierProperties.

Section KeywordProperties.

Import TextProcessor.

Lemma insert_desc_in {A} (x y : A * Z) (l : list (A * Z)) :
  In y (insert_desc x l) -> y = x \/ In y l.
Proof.
  induction l as [| z l IH]; cbn [insert_desc].
  - intros [<- | []]. left. reflexivity.
  - destruct (snd z <? snd x).
    + intros [<- | Hin]; [left; reflexivity | right; exact Hin].
    + intros [<- | Hin]; [right; left; reflexivity |].
      destruct (IH Hin) as [-> | Hin']; [left; reflexivity |].
      right. right. exact Hin'.
Qed.

Lemma insert_desc_descending {A} (x : A * Z) (l : list (A * Z)) :
  descending (map snd l) -> descending (map snd (insert_desc x l)).
Proof.
  induction l as [| z l IH]; cbn [insert_desc map descending].
  - intros _. split; [intros y [] | exact I].
  - intros [Hz Hl]. destruct (Z.ltb_spec (snd z) (snd x)) as [Hlt | Hge];
      cbn [map descending].
    + split; [| split; assumption].
      intros y [<- | Hy]; [lia |]. specialize (Hz y Hy). lia.
    + split; [| exact (IH Hl)].
      intros y Hy. apply in_map_iff in Hy. destruct Hy as (w & <- & Hw).
      destruct (insert_desc_in _ _ _ Hw) as [-> | Hw']; [exact Hge |].
      apply Hz. apply in_map. exact Hw'.
Qed.

Lemma sorted_desc_descending {A} (items : list (A * Z)) :
  descending (map snd (sorted_desc items)).
Proof.
  unfold sorted_desc.
  assert (H : forall acc, descending (map snd acc) ->
    descending
      (map snd (fold_left (fun acc x => insert_desc x acc) items acc))).
  { induction items as [| x items IH]; intros acc Hacc; [exact Hacc |].
    cbn [fold_left]. apply IH, insert_desc_descending, Hacc. }
  apply H. exact I.
Qed.

Lemma firstn_in {A} (k : nat) (l : list A) (x : A) :
  In x (firstn k l) -> In x l.
Proof.
  revert l. induction k as [| k IH]; intros [| y l]; cbn; try tauto.
  intros [<- | Hin]; [left; reflexivity | right; exact (IH _ Hin)].
Qed.

Lemma firstn_descending (k : nat) (l : list Z) :
  descending l -> descending (firstn k l).
Proof.
  revert l. induction k as [| k IH]; intros [| x l]; cbn; try tauto.
  intros [Hx Hl]. split; [| exact (IH _ Hl)].
  intros y Hy. apply Hx. exact (firstn_in _ _ _ Hy).
Qed.

Lemma slice_items_firstn {A} (bound : option Z) (l : list A) :
  exists k, slice_items bound l = firstn k l.
Proof.
  destruct bound as [n |]; cbn [slice_items].
  - unfold slice_to. destruct (n <? 0); eexists; reflexivity.
  - exists (length l). symmetry. apply List.firstn_all.
Qed.

Lemma find_bump (token word : string) (word_freq : list (string * Z)) :
  find (has_key word) (bump token word_freq)
  = if String.eqb token word
    then Some (token,
               match find (has_key token) word_freq with
               | Some entry => snd entry + 1
               | None => 1
               end)
    else find (has_key word) word_freq.
Proof.
  induction word_freq as [| [k n] rest IH]; cbn [bump find has_key fst].
  - unfold has_key. cbn [find fst].
    destruct (String.eqb token word); reflexivity.
  - destruct (String.eqb_spec k token) as [-> | Hk]; cbn [find].
    + unfold has_key at 1. cbn [fst snd].
      destruct (String.eqb_spec token word) as [-> | Hw].
      * unfold has_key. cbn [fst snd]. rewrite String.eqb_refl. reflexivity.
      * unfold has_key at 2. cbn [fst].
        destruct (String.eqb_spec token word); [contradiction | reflexivity].
    + unfold has_key at 1. cbn [fst].
      destruct (String.eqb_spec k word) as [-> | Hkw].
      * destruct (String.eqb_spec token word) as [-> | Hw]; [contradiction |].
        unfold has_key. cbn [fst]. rewrite String.eqb_refl. reflexivity.
      * rewrite IH. destruct (String.eqb_spec token word) as [-> | Hw].
        -- unfold has_key at 2. cbn [fst].
           destruct (String.eqb_spec k word); [contradiction | reflexivity].
        -- unfold has_key at 2. cbn [fst].
           destruct (String.eqb_spec k word); [contradiction | reflexivity].
Qed.

Lemma bump_keys (token : string) (word_freq : list (string * Z)) :
  NoDup (map fst word_freq) ->
  NoDup (map fst (bump token word_freq)) /\
  (forall k, In k (map fst (bump token word_freq))
             <-> k = token \/ In k (map fst word_freq)).
Proof.
  induction word_freq as [| [w n] rest IH]; cbn [bump map fst].
  - intros _. split.
    + apply NoDup_cons.
      split; [intros H; inversion H | apply NoDup_nil; exact I].
    + intros k. cbn. intuition.
  - intros Hnd. apply NoDup_cons in Hnd. destruct Hnd as [Hw Hrest].
    destruct (String.eqb_spec w token) as [-> | Hne]; cbn [map fst].
    + split; [apply NoDup_cons; split; assumption |].
      intros k. cbn. intuition.
    + destruct (IH Hrest) as [Hnd' Hin]. split.
      * apply NoDup_cons. split; [| exact Hnd'].
        intros Hw'. apply list_elem_of_In, Hin in Hw'.
        destruct Hw' as [-> | Hw']; [contradiction |].
        apply Hw, list_elem_of_In. exact Hw'.
      * intros k. cbn. rewrite Hin. intuition.
Qed.

Lemma occurrences_app (word : string) (l1 l2 : list string) :
  occurrences word (l1 ++ l2) = occurrences word l1 + occurrences word l2.
Proof.
  unfold occurrences. rewrite List.filter_app, List.length_app. lia.
Qed.

Lemma occurrences_pos (word : string) (tokens : list string) :
  In word tokens <-> 0 < occurrences word tokens.
Proof.
  unfold occurrences. induction tokens as [| t tokens IH]; cbn [List.filter In].
  - cbn. split; [tauto | lia].
  - destruct (String.eqb_spec word t) as [<- | Hne]; cbn [length].
    + split; [lia | auto].
    + rewrite <- IH. split; [intros [H | H]; [congruence | exact H] | auto].
Qed.

Lemma count_words_spec (tokens : list string) :
  NoDup (map fst (count_words tokens)) /\
  (forall k, In k (map fst (count_words tokens)) <-> In k tokens) /\
  (forall word,
      find (has_key word) (count_words tokens)
      = if occurrences word tokens =? 0 then None
        else Some (word, occurrences word tokens)).
Proof.
  unfold count_words.
  assert (H : forall rest seen acc,
    NoDup (map fst acc) ->
    (forall k, In k (map fst acc) <-> In k seen) ->
    (forall word,
        find (has_key word) acc
        = if occurrences word seen =? 0 then None
          else Some (word, occurrences word seen)) ->
    let r := fold_left (fun word_freq token => bump token word_freq) rest acc in
    NoDup (map fst r) /\
    (forall k, In k (map fst r) <-> In k (seen ++ rest)%list) /\
    (forall word,
        find (has_key word) r
        = if occurrences word (seen ++ rest) =? 0 then None
          else Some (word, occurrences word (seen ++ rest)))).
  { induction rest as [| t rest IH]; intros seen acc Hnd Hkeys Hfind.
    - cbn [fold_left]. rewrite List.app_nil_r. auto.
    - cbn [fold_left]. cbn zeta.
      replace (seen ++ t :: rest)%list with ((seen ++ [t]) ++ rest)%list
        by (rewrite <- List.app_assoc; reflexivity).
      destruct (bump_keys t acc Hnd) as [Hnd' Hkeys'].
      apply IH; [exact Hnd' | |].
      + intros k. rewrite Hkeys', Hkeys, List.in_app_iff. cbn. intuition.
      + intros word. rewrite find_bump, occurrences_app, !Hfind.
        assert (H0 : 0 <= occurrences word seen) by (unfold occurrences; lia).
        assert (H1 : occurrences word [t]
                     = if String.eqb t word then 1 else 0).
        { unfold occurrences. cbn [List.filter].
          rewrite (String.eqb_sym word t).
          destruct (String.eqb t word); reflexivity. }
        rewrite H1.
        destruct (String.eqb_spec t word) as [-> | Hne].
        * destruct (Z.eqb_spec (occurrences word seen) 0) as [Hz | Hz].
          -- rewrite Hz. reflexivity.
          -- cbn [snd].
             destruct (Z.eqb_spec (occurrences word seen + 1) 0);
               [lia | reflexivity].
        * rewrite Z.add_0_r. reflexivity. }
  specialize (H tokens [] [] (NoDup_nil_2)
                (fun k => conj (fun x => x) (fun x => x))).
  cbn zeta in H. apply H. intros word. reflexivity.
Qed.

Lemma find_in (word : string) (c : Z) (word_freq : list (string * Z)) :
  NoDup (map fst word_freq) ->
  In (word, c) word_freq <-> find (has_key word) word_freq = Some (word, c).
Proof.
  induction word_freq as [| [k n] rest IH]; cbn [map fst find In].
  - intros _. split; [tauto | discriminate].
  - intros Hnd. apply NoDup_cons in Hnd. destruct Hnd as [Hk Hrest].
    unfold has_key at 1. cbn [fst].
    destruct (String.eqb_spec k word) as [-> | Hne].
    + split.
      * intros [[= ->] | Hin]; [reflexivity |].
        exfalso. apply Hk, list_elem_of_In.
        apply (in_map fst) in Hin. exact Hin.
      * intros [= ->]. left. reflexivity.
    + rewrite <- (IH Hrest). split; [| auto].
      intros [[= -> _] | Hin]; [contradiction | exact Hin].
Qed.

Lemma count_words_in (tokens : list string) (word : string) (c : Z) :
  In (word, c) (count_words tokens)
  <-> In word tokens /\ c = occurrences word tokens.
Proof.
  destruct (count_words_spec tokens) as (Hnd & _ & Hfind).
  rewrite (find_in word c _ Hnd), Hfind, occurrences_pos.
  destruct (Z.eqb_spec (occurrences word tokens) 0) as [Hz | Hz].
  - split; [discriminate | intros [Hpos _]; lia].
  - assert (0 <= occurrences word tokens) by (unfold occurrences; lia).
    split; [intros [= <-]; split; [lia | reflexivity] |].
    intros [_ ->]. reflexivity.
Qed.

Lemma insert_desc_perm {A} (x : A * Z) (l : list (A * Z)) :
  Permutation (insert_desc x l) (x :: l).
Proof.
  induction l as [| y l IH]; cbn [insert_desc]; [reflexivity |].
  destruct (snd y <? snd x); [reflexivity |].
  rewrite IH. apply perm_swap.
Qed.

Lemma sorted_desc_perm {A} (items : list (A * Z)) :
  Permutation (sorted_desc items) items.
Proof.
  unfold sorted_desc.
  assert (H : forall acc,
    Permutation (fold_left (fun acc x => insert_desc x acc) items acc)
      (items ++ acc)).
  { induction items as [| x items IH]; intros acc; cbn [fold_left app];
      [reflexivity |].
    rewrite IH, insert_desc_perm. symmetry. apply Permutation_middle. }
  rewrite H, List.app_nil_r. reflexivity.
Qed.

Lemma descending_split {A} (k : nat) (l : list (A * Z)) (x y : A * Z) :
  descending (map snd l) ->
  In x (firstn k l) -> In y (skipn k l) -> snd y <= snd x.
Proof.
  revert l. induction k as [| k IH]; intros [| z l]; cbn [firstn skipn];
    try (intros _ H; exact (False_ind _ H)).
  cbn [map descending]. intros [Hz Hl] [<- | Hx] Hy.
  - apply Hz. apply in_map.
    rewrite <- (List.firstn_skipn k l). apply List.in_or_app. right. exact Hy.
  - exact (IH l Hl Hx Hy).
Qed.

Lemma firstn_NoDup {A} (k : nat) (l : list A) :
  NoDup l -> NoDup (firstn k l).
Proof.
  intros H. rewrite <- (List.firstn_skipn k l) in H.
  apply NoDup_app in H. tauto.
Qed.

(** X11: without scikit-learn, [extract_keywords] returns the words by
    falling count: the scores are integers, each at least as great as
    those after it.  For [num_keywords] an integer [n >= 0] it returns at
    most [n] items; for a [num_keywords] that is no integer (a string, a
    float) the slice raises inside the [try] and the result is the empty
    list.  When the tokenization returns and [n >= 0], the items are as
    many as [n] allows and the text has distinct tokens; they are
    distinct tokens of the text, each with the number of its occurrences
    as score and that number over the number of tokens as weight; and no
    token left out occurs more often than a token returned. *)
Theorem extract_keywords_by_falling_count (L : Libs) (text : string)
    (num_keywords : pyvalue) :
  tfidf L = None ->
  (exists counts,
      map score (extract_keywords L text num_keywords) = map PInt counts /\
      descending counts) /\
  (forall n, num_keywords = PInt n -> 0 <= n ->
     (length (extract_keywords L text num_keywords) <= Z.to_nat n)%nat) /\
  (forall e, slice_bound num_keywords = Raised e ->
     extract_keywords L text num_keywords = []) /\
  (forall tokens n,
      tokenize_text L text = Returned tokens ->
      num_keywords = PInt n -> 0 <= n ->
      let items := extract_keywords L text num_keywords in
      length items = Nat.min (Z.to_nat n) (length (remove_dups tokens)) /\
      NoDup (map keyword items) /\
      (forall item, In item items ->
         In (keyword item) tokens /\
         score item = PInt (occurrences (keyword item) tokens) /\
         weight item
         = truediv (occurrences (keyword item) tokens) (len tokens)) /\
      (forall item word,
         In item items -> In word tokens ->
         ~ In word (map keyword items) ->
         occurrences word tokens <= occurrences (keyword item) tokens)).
Proof.
  intros Htfidf. unfold extract_keywords, extract_keywords_items.
  rewrite Htfidf.
  destruct (tokenize_text L text) as [tokens | e0]; cbn [obind].
  2: { split; [exists []; split; [reflexivity | exact I] |].
       split; [intros; cbn; lia |]. split; [reflexivity |].
       intros tokens n Ht. discriminate Ht. }
  destruct (slice_bound num_keywords) as [bound | e1] eqn:Hbound;
    cbn [obind].
  2: { split; [exists []; split; [reflexivity | exact I] |].
       split; [intros; cbn; lia |]. split; [reflexivity |].
       intros tokens' n _ ->. discriminate Hbound. }
  split; [| split; [| split]].
  - destruct (slice_items_firstn bound (sorted_desc (count_words tokens)))
      as [k ->].
    exists (firstn k (map snd (sorted_desc (count_words tokens)))). split.
    + rewrite List.firstn_map, !List.map_map. apply List.map_ext.
      intros [w f]. reflexivity.
    + apply firstn_descending, sorted_desc_descending.
  - intros n -> Hn. cbn in Hbound. injection Hbound as <-.
    rewrite List.length_map. cbn [slice_items]. unfold slice_to.
    destruct (Z.ltb_spec n 0); [lia |].
    rewrite List.length_firstn. lia.
  - intros e He. discriminate He.
  - intros tokens' n [= <-] -> Hn. cbn in Hbound. injection Hbound as <-.
    cbn zeta. cbn [slice_items]. unfold slice_to.
    destruct (Z.ltb_spec n 0) as [Hneg | _]; [lia |].
    set (sorted := sorted_desc (count_words tokens)).
    set (k := Z.to_nat n).
    destruct (count_words_spec tokens) as (Hnd & Hkeys & _).
    pose proof (sorted_desc_perm (count_words tokens)) as Hperm.
    fold sorted in Hperm.
    assert (Hsorted_nd : NoDup (map fst sorted)).
    { assert (Hmap : Permutation (map fst sorted)
                       (map fst (count_words tokens)))
        by (apply Permutation_map; exact Hperm).
      rewrite Hmap. exact Hnd. }
    assert (Hkw : map keyword
                    (map (fun '(word, freq) =>
                            {| keyword := word; score := PInt freq;
                               weight := truediv freq (len tokens) |})
                       (firstn k sorted))
                  = map fst (firstn k sorted)).
    { rewrite List.map_map. apply List.map_ext. intros [w f]. reflexivity. }
    assert (Hitem : forall item,
      In item
        (map (fun '(word, freq) =>
                {| keyword := word; score := PInt freq;
                   weight := truediv freq (len tokens) |})
           (firstn k sorted)) ->
      In (keyword item, occurrences (keyword item) tokens) (firstn k sorted)
      /\ In (keyword item) tokens
      /\ score item = PInt (occurrences (keyword item) tokens)
      /\ weight item
         = truediv (occurrences (keyword item) tokens) (len tokens)).
    { intros item Hin. apply in_map_iff in Hin.
      destruct Hin as ([w c] & <- & Hin). cbn [keyword score weight].
      pose proof (firstn_in _ _ _ Hin) as Hin'.
      apply (Permutation_in _ Hperm), count_words_in in Hin'.
      destruct Hin' as [Hw ->]. auto. }
    split; [| split; [| split]].
    + rewrite List.length_map, List.length_firstn. f_equal.
      rewrite (Permutation_length Hperm).
      rewrite <- (List.length_map fst (count_words tokens)).
      apply Permutation_length. apply NoDup_Permutation.
      * exact Hnd.
      * apply NoDup_remove_dups.
      * intros w. rewrite elem_of_remove_dups, !list_elem_of_In.
        apply Hkeys.
    + rewrite Hkw, <- List.firstn_map. apply firstn_NoDup. exact Hsorted_nd.
    + intros item Hin. destruct (Hitem item Hin) as (_ & H1 & H2 & H3). auto.
    + intros item word Hin Hword Hout.
      destruct (Hitem item Hin) as (Hfirst & _).
      assert (Hall : In (word, occurrences word tokens) sorted).
      { apply (Permutation_in _ (Permutation_sym Hperm)), count_words_in.
        auto. }
      rewrite <- (List.firstn_skipn k sorted) in Hall.
      apply List.in_app_or in Hall. destruct Hall as [Hhead | Htail].
      * exfalso. apply Hout. rewrite Hkw.
        apply (in_map fst) in Hhead. exact Hhead.
      * exact (descending_split k sorted _ _
                 (sorted_desc_descending (count_words tokens)) Hfirst Htail).
Qed.


Lemma take_fitting_stops (n cur : Z) (scored : list (string * Z)) :
  exists k,
    take_fitting (PInt n) cur scored = Returned (firstn k (map fst scored)) /\
    (k <= length scored)%nat /\
    (k = 0%nat \/ cur + total_length (firstn k (map fst scored)) <= n) /\
    (forall next, nth_error (map fst scored) k = Some next ->
       n < cur + total_length (firstn k (map fst scored)) + py_len next).
Proof.
  revert cur. induction scored as [| [s sc] scored IH]; intros cur;
    cbn [take_fitting].
  - exists 0%nat. split; [reflexivity |]. split; [reflexivity |].
    split; [left; reflexivity |]. intros next H. discriminate H.
  - cbn [int_le obind]. destruct (Z.leb_spec (cur + py_len s) n) as [Hle | Hgt].
    + destruct (IH (cur + py_len s)) as (k & -> & Hk & Hsum & Hnext).
      cbn [obind]. exists (S k). cbn [map fst firstn length nth_error].
      split; [reflexivity |]. split; [lia |].
      cbn [total_length fold_right].
      fold (total_length (firstn k (map fst scored))). split.
      * right. destruct Hsum as [-> | Hsum];
          [rewrite List.firstn_O; cbn [total_length fold_right]; lia | lia].
      * intros next H. specialize (Hnext next H). lia.
    + exists 0%nat. cbn [map fst firstn nth_error length].
      split; [reflexivity |]. split; [lia |]. split; [left; reflexivity |].
      intros next [= <-]. cbn [total_length fold_right]. lia.
Qed.

(** X12: the loop of [generate_summary] that fills [summary_sentences]
    takes the ranked sentences from the first on and stops at the first
    that does not fit.  For an integer [max_length], what it takes is the
    first [k] sentences of the ranking; their lengths add up to at most
    [max_length] (the spaces that join them later are not counted); and
    the sentence that comes next in the ranking, if there is one, would
    bring the sum above [max_length]: when none is left, every sentence
    was taken. *)
Theorem summary_sentences_fit (max_length : Z)
    (scored : list (string * Z)) :
  exists chosen k,
    take_fitting (PInt max_length) 0 scored = Returned chosen /\
    chosen = firstn k (map fst scored) /\
    (k <= length scored)%nat /\
    (chosen = [] \/ total_length chosen <= max_length) /\
    (forall next,
        nth_error (map fst scored) k = Some next ->
        max_length < total_length chosen + py_len next) /\
    (k = length scored -> chosen = map fst scored).
Proof.
  destruct (take_fitting_stops max_length 0 scored)
    as (k & H & Hk & Hsum & Hnext).
  exists (firstn k (map fst scored)), k. split; [exact H |].
  split; [reflexivity |]. split; [exact Hk |]. split; [| split].
  - destruct Hsum as [-> | Hsum]; [left; reflexivity | right; lia].
  - intros next Hn. specialize (Hnext next Hn). lia.
  - intros ->. rewrite <- (List.length_map fst scored).
    apply List.firstn_all.
Qed.

(** X13: with an integer [max_length], [generate_summary] never raises,
    whatever the libraries do.  When splitting the text in sentences
    raises, it returns the text itself if that is not longer than
    [max_length], and else the slice [text[:max_length]] followed by
    three dots. *)
Theorem generate_summary_with_integer_length (L : Libs) (text : string)
    (max_length : Z) :
  (exists summary,
      generate_summary L text (PInt max_length) = Returned summary) /\
  (forall e, sent_tokenize L text = Raised e ->
     generate_summary L text (PInt max_length)
     = Returned (if max_length <? py_len text
                 then str_slice_to max_length text ++ "..."
                 else text)).
Proof.
  unfold generate_summary, try_except. split.
  - destruct (generate_summary_try L text (PInt max_length)) as [s | e].
    + exists s. reflexivity.
    + cbn [int_gt obind slice_bound].
      destruct (max_length <? py_len text); eexists; reflexivity.
  - intros e He. unfold generate_summary_try, extract_sentences.
    rewrite He. cbn [obind int_gt slice_bound].
    destruct (max_length <? py_len text); reflexivity.
Qed.

(** X14: with a [max_length] that is a string, [generate_summary] raises
    a [TypeError] as soon as the text has a sentence: the comparison in
    the body raises, and so does the one in the handler. *)
Theorem generate_summary_with_string_length (L : Libs) (text : string)
    (max_length : string) (s : string) (rest : list string) :
  extract_sentences L text = Returned (s :: rest) ->
  exists e,
    generate_summary L text (PStr max_length) = Raised e /\
    exn_class e = "TypeError".
Proof.
  intros Hs. unfold generate_summary, generate_summary_try, try_except.
  rewrite Hs. cbn. eexists. split; reflexivity.
Qed.

End KeywordProperties.

Section EntityProperties.

Import TextProcessor.

Lemma nltk_entities_length (chunks : list chunk) (entities : list pyvalue)
    (current_entity : list string) (current_label : option string) :
  length (nltk_entities chunks entities current_entity current_label)
  = (length entities
     + length (List.filter opens_entity (removelast chunks))
     + match current_entity, chunks with
       | _ :: _, _ :: _ => 1
       | _, _ => 0
       end)%nat.
Proof.
  revert entities current_entity current_label.
  induction chunks as [| c rest IH]; intros entities cur lab.
  - cbn [removelast List.filter length nltk_entities].
    destruct cur; cbn [length]; lia.
  - cbn [nltk_entities].
    assert (Hlast : length (List.filter opens_entity (removelast (c :: rest)))
                    = match rest with
                      | [] => 0%nat
                      | _ => ((if opens_entity c then 1 else 0)
                              + length (List.filter opens_entity
                                          (removelast rest)))%nat
                      end).
    { destruct rest as [| c' rest']; [reflexivity |].
      change (removelast (c :: c' :: rest'))
        with (c :: removelast (c' :: rest')).
      cbn [List.filter]. destruct (opens_entity c); reflexivity. }
    rewrite Hlast.
    destruct c as [label leaves | token pos].
    + rewrite IH. destruct cur as [| w cur], leaves as [| lf leaves],
        rest as [| c' rest'];
        rewrite ?List.length_app;
        cbn [length map opens_entity removelast List.filter]; lia.
    + destruct cur as [| w cur]; rewrite IH; destruct rest as [| c' rest'];
        rewrite ?List.length_app;
        cbn [length opens_entity removelast List.filter]; lia.
Qed.

(** X15: without a spaCy model, [extract_entities] returns one entity for
    each subtree of the chunker that has a token and is followed by
    another chunk: an entity that is the last chunk of the text is never
    returned. *)
Theorem extract_entities_drops_the_last (L : Libs) (text : string)
    (tokens : list string) (pos_tags : list (string * string))
    (chunks : list chunk) :
  nlp_model L = None ->
  word_tokenize L text = Returned tokens ->
  pos_tag L tokens = Returned pos_tags ->
  ne_chunk L pos_tags = Returned chunks ->
  length (extract_entities L text)
  = length (List.filter opens_entity (removelast chunks)).
Proof.
  intros Hnlp Hw Hp Hc. unfold extract_entities.
  rewrite Hnlp, Hw. cbn [obind]. rewrite Hp. cbn [obind]. rewrite Hc.
  rewrite nltk_entities_length. cbn [length]. lia.
Qed.

End EntityProperties.

Section BundleProperties.

Import TextProcessor.

Local Ltac bundle_cases L text options :=
  unfold process_text; fold (options_read options);
  unfold process_text_try;
  destruct (extract_sentences L (clean_text L text)) as [sentences | e1];
    [destruct (tokenize_text L (clean_text L text)) as [tokens | e2];
       [destruct
          (option_on (options_read options) "calculate_readability"),
          (option_on (options_read options) "extract_entities"),
          (option_on (options_read options) "extract_keywords"),
          (option_on (options_read options) "classify_text"),
          (option_on (options_read options) "generate_summary");
        try destruct (classify_text L (clean_text L text) _) as [c | e3];
        try destruct (generate_summary L (clean_text L text) _) as [s | e4];
        cbn [obind]
       |]
    |].

(** X16: the bundle of [process_text] always holds the time, the length of
    the text, the cleaned text and its length, also when the processing
    failed and [success] is False. *)
Theorem process_text_keeps_the_cleaned_text (L : Libs) (text : string)
    (options : option dict) (now : string) :
  exists results,
    process_text L text options now = Returned results /\
    dict_get results "processed_at" = Some (PStr now) /\
    dict_get results "original_length" = Some (PInt (py_len text)) /\
    dict_get results "cleaned_text" = Some (PStr (clean_text L text)) /\
    dict_get results "cleaned_length"
    = Some (PInt (py_len (clean_text L text))).
Proof.
  bundle_cases L text options;
    (eexists; split; [reflexivity |]; repeat split).
Qed.

Local Ltac settle_presence :=
  repeat match goal with
    | |- _ /\ _ => split
    | |- _ -> _ => intro
    | |- _ <-> _ => split
    | H : is_Some None |- _ => destruct H as [? H]; discriminate H
    | H : _ = _ |- _ => discriminate H
    | |- is_Some (Some _) => eexists; reflexivity
    | |- _ = _ => reflexivity
    end.

(** X17: an analysis is in the bundle only if its option is on.  An
    option is on when it is absent or when its value counts as true, so a
    value [False], [0], [None] or an empty string turns the analysis off:
    then the bundle has no entry for it.  In a bundle with [success] True
    the entry is there exactly when the option is on. *)
Theorem analyses_follow_the_options (L : Libs) (text : string)
    (options : option dict) (now : string) :
  exists results,
    process_text L text options now = Returned results /\
    (option_on (options_read options) "calculate_readability" = false ->
     dict_get results "readability" = None) /\
    (option_on (options_read options) "extract_entities" = false ->
     dict_get results "entities" = None) /\
    (option_on (options_read options) "extract_keywords" = false ->
     dict_get results "keywords" = None) /\
    (option_on (options_read options) "classify_text" = false ->
     dict_get results "classification" = None) /\
    (option_on (options_read options) "generate_summary" = false ->
     dict_get results "summary" = None) /\
    (dict_get results "success" = Some (PBool true) ->
     (is_Some (dict_get results "readability")
      <-> option_on (options_read options) "calculate_readability" = true) /\
     (is_Some (dict_get results "entities")
      <-> option_on (options_read options) "extract_entities" = true) /\
     (is_Some (dict_get results "keywords")
      <-> option_on (options_read options) "extract_keywords" = true) /\
     (is_Some (dict_get results "classification")
      <-> option_on (options_read options) "classify_text" = true) /\
     (is_Some (dict_get results "summary")
      <-> option_on (options_read options) "generate_summary" = true)).
Proof.
  bundle_cases L text options;
    (eexists; split; [reflexivity |]);
    cbn [dict_get dict_set dict_update fold_left fst snd String.eqb
         Ascii.eqb Bool.eqb];
    settle_presence.
Qed.

End BundleProperties.

(** ** More on the job record and the tasks *)

Section JobLifecycle.

Import ProcessingJob.

Lemma job_step_keeps_records (j j' : ProcessingJob.t) :
  job_step j j' ->
  (is_Some (error_message j) -> is_Some (error_message j')) /\
  (is_Some (completed_at j) -> is_Some (completed_at j')) /\
  (is_Some (started_at j) -> is_Some (started_at j')).
Proof.
  intros H. destruct H; cbn; repeat split; intros; eauto.
Qed.

(** X18: nothing clears what a job has recorded.  Through any sequence of
    the methods of the model and of the assignments of the tasks, a job
    that has an error message keeps one, and a job that has a start or a
    completion time keeps one: a job that failed and is then started and
    completed again is Completed and still carries the message of the
    failure. *)
Theorem job_records_are_never_cleared (j j' : ProcessingJob.t) :
  rtc job_step j j' ->
  (is_Some (error_message j) -> is_Some (error_message j')) /\
  (is_Some (completed_at j) -> is_Some (completed_at j')) /\
  (is_Some (started_at j) -> is_Some (started_at j')).
Proof.
  induction 1 as [j | j j1 j2 Hstep _ (IHe & IHc & IHs)].
  - repeat split; intros H; exact H.
  - destruct (job_step_keeps_records _ _ Hstep) as (He & Hc & Hs).
    repeat split; intros H; auto.
Qed.

(** X19: [update_progress] keeps nothing of the value stored before: two
    reports in a row leave what the second alone would leave, so the
    progress of a job goes down when a lower value is reported; and
    reporting the value that is stored stores it again unchanged. *)
Theorem update_progress_last_report_wins (stage1 stage2 : string)
    (p1 p2 : float) (j : ProcessingJob.t) :
  update_progress stage2 p2 (update_progress stage1 p1 j)
  = update_progress stage2 p2 j /\
  update_progress stage1
    (progress_percentage (update_progress stage1 p1 j))
    (update_progress stage1 p1 j)
  = update_progress stage1 p1 j.
Proof.
  split; [reflexivity |].
  unfold update_progress. cbn. f_equal.
  destruct (clamp_percentage_cases p1)
    as [[_ ->] | [(_ & _ & ->) | (Hlow & Hhigh & Heq)]];
    [reflexivity | reflexivity |].
  rewrite Heq. exact Heq.
Qed.

Lemma process_document_claim_raises (now : datetime) (j : job_object) :
  process_document_claim now j = Raised (Exn "AttributeError" "IN_PROGRESS").
Proof. reflexivity. Qed.

(** X20: a run of [process_document] always raises, and changes the row
    of its job and no other.  When the table has no such job the run
    raises [ValueError] and the table is unchanged.  When it has, the run
    fails at its first assignment, [JobStatus.IN_PROGRESS] being no member
    of the enumeration: the handler leaves the job Failed, with the time
    of the failure as completion time and the name of the missing member
    as error message, and with its start time, worker, progress and retry
    count as they were, whatever they were; the task raises an
    [AttributeError]. *)
Theorem process_document_settles_its_job
    (db : gmap string ProcessingJob.t) (job_id document_id user_id : string)
    (pipeline : exn) (t_start t_fail : datetime) :
  let res := process_document db job_id document_id user_id pipeline
               t_start t_fail in
  (forall other, job_id <> other ->
     fst (fst res) !! other = db !! other) /\
  (db !! job_id = None ->
   fst (fst res) = db /\ snd (fst res) = None /\
   snd res = Raised (Exn "ValueError" ("Job " ++ job_id ++ " not found"))) /\
  (forall j, db !! job_id = Some j ->
     exists j' e,
       fst (fst res) !! job_id = Some j' /\
       (row <$> snd (fst res)) = Some j' /\
       snd res = Raised e /\ exn_class e = "AttributeError" /\
       status j' = JobStatus.FAILED /\
       completed_at j' = Some t_fail /\
       error_message j' = Some "IN_PROGRESS" /\
       started_at j' = started_at j /\
       worker_id j' = worker_id j /\
       progress_percentage j' = progress_percentage j /\
       retry_count j' = retry_count j /\
       rtc job_step j j').
Proof.
  cbn zeta. unfold process_document.
  destruct (db !! job_id) as [r |] eqn:Hjob.
  - rewrite process_document_claim_raises. cbn [fst snd progress
      process_document_fail loaded row exn_str].
    split; [intros other Hne; rewrite lookup_insert_ne by exact Hne;
            reflexivity |].
    split; [discriminate |].
    intros j [= <-]. rewrite lookup_insert_eq. eexists. eexists.
    split; [reflexivity |]. split; [reflexivity |].
    split; [reflexivity |]. repeat (split; [reflexivity |]).
    eapply rtc_l; [apply (step_assign_status JobStatus.FAILED) |].
    eapply rtc_l; [apply (step_assign_error_message "IN_PROGRESS") |].
    apply rtc_once. apply step_assign_completed_at.
  - cbn [fst snd]. split; [reflexivity |]. split; [| discriminate].
    intros _. repeat split.
Qed.

End JobLifecycle.

Section TaskProperties.

Import TextProcessor.

Lemma batch_loop_count (apply_async : string -> string -> outcome string)
    (job_ids document_ids : list string) :
  (length (fst (batch_loop apply_async job_ids document_ids))
   + length (snd (batch_loop apply_async job_ids document_ids)))%nat
  = Nat.min (length job_ids) (length document_ids).
Proof.
  revert document_ids.
  induction job_ids as [| job_id job_ids IH]; intros [| doc document_ids];
    try reflexivity.
  cbn [batch_loop]. specialize (IH document_ids).
  destruct (batch_loop apply_async job_ids document_ids) as [results failed].
  cbn [fst snd] in IH.
  destruct (apply_async job_id doc); cbn [fst snd length Nat.min]; lia.
Qed.

Lemma batch_loop_entries (apply_async : string -> string -> outcome string)
    (job_ids document_ids : list string) :
  batch_loop apply_async job_ids document_ids
  = (queued_entries apply_async (combine job_ids document_ids),
     failed_entries apply_async (combine job_ids document_ids)).
Proof.
  revert document_ids.
  induction job_ids as [| job_id job_ids IH]; intros [| doc document_ids];
    try reflexivity.
  cbn [batch_loop combine queued_entries failed_entries flat_map].
  fold (queued_entries apply_async (combine job_ids document_ids)).
  fold (failed_entries apply_async (combine job_ids document_ids)).
  rewrite IH. cbn [fst snd]. destruct (apply_async job_id doc); reflexivity.
Qed.

Lemma failed_entries_nil (apply_async : string -> string -> outcome string)
    (pairs : list (string * string)) :
  failed_entries apply_async pairs = [] <->
  forall job_id document_id,
    In (job_id, document_id) pairs ->
    exists task_id, apply_async job_id document_id = Returned task_id.
Proof.
  induction pairs as [| [j d] pairs IH];
    cbn [failed_entries flat_map fst snd].
  - split; [intros _ job_id document_id [] | reflexivity].
  - fold (failed_entries apply_async pairs). split.
    + intros Hnil job_id document_id [[= <- <-] | Hin].
      * destruct (apply_async j d) as [id | e]; [exists id; reflexivity |].
        discriminate Hnil.
      * destruct (apply_async j d) as [id | e]; [| discriminate Hnil].
        exact (proj1 IH Hnil job_id document_id Hin).
    + intros Hall. destruct (Hall j d (or_introl eq_refl)) as [id ->].
      cbn [app]. apply IH. intros job_id document_id Hin.
      apply Hall. right. exact Hin.
Qed.

(** X22: [batch_process_documents] goes through the pairs of
    [zip(job_ids, document_ids)] in their order: [queued] has one entry,
    with the task id, for each pair whose queueing returned, [failed] one
    entry, with the message of the error, for each pair whose queueing
    raised, and [success] is True exactly when no queueing of a pair
    raised; one pair whose queueing raises makes it False.  The two lists
    are together as long as the shorter of the lists given, while [total]
    is the number of documents given: documents beyond the last job id
    are neither queued nor failed, and the batch still reports
    success. *)
Theorem batch_counts_the_pairs
    (apply_async : string -> string -> outcome string)
    (job_ids document_ids : list string) :
  let pairs := combine job_ids document_ids in
  let queued := queued_entries apply_async pairs in
  let failed := failed_entries apply_async pairs in
  let r := batch_process_documents apply_async job_ids document_ids in
  dict_get r "queued" = Some (PList queued) /\
  dict_get r "failed" = Some (PList failed) /\
  (length queued + length failed)%nat
  = Nat.min (length job_ids) (length document_ids) /\
  dict_get r "total" = Some (PInt (Z.of_nat (length document_ids))) /\
  dict_get r "success"
  = Some (PBool (match failed with [] => true | _ => false end)) /\
  (dict_get r "success" = Some (PBool true) <->
   forall job_id document_id,
     In (job_id, document_id) pairs ->
     exists task_id, apply_async job_id document_id = Returned task_id) /\
  (forall job_id document_id e,
      In (job_id, document_id) pairs ->
      apply_async job_id document_id = Raised e ->
      dict_get r "success" = Some (PBool false) /\
      In (failed_entry document_id e) failed).
Proof.
  cbn zeta. unfold batch_process_documents.
  pose proof (batch_loop_count apply_async job_ids document_ids) as Hcount.
  rewrite batch_loop_entries in *. cbn [fst snd] in Hcount.
  set (pairs := combine job_ids document_ids) in *.
  pose proof (failed_entries_nil apply_async pairs) as Hnil.
  repeat (split; [first [reflexivity | exact Hcount] |]).
  split; [split |].
  - intros Hsuccess. apply Hnil. cbn in Hsuccess.
    destruct (failed_entries apply_async pairs); [reflexivity |].
    discriminate Hsuccess.
  - intros Hall. rewrite (proj2 Hnil Hall). reflexivity.
  - intros job_id document_id e Hin He.
    assert (Hfailed : In (failed_entry document_id e)
                        (failed_entries apply_async pairs)).
    { unfold failed_entries. apply in_flat_map.
      exists (job_id, document_id). split; [exact Hin |].
      cbn [fst snd]. rewrite He. left. reflexivity. }
    split; [| exact Hfailed].
    cbn. destruct (failed_entries apply_async pairs); [destruct Hfailed |].
    reflexivity.
Qed.

End TaskProperties.

(** ** Instances *)

Section MoreExamples.

Import ConnectionManager WebSocketManager TextProcessor.

(** X3, witness: a new manager. *)
Lemma metadata_only_for_registered_witness :
  metadata_registered ConnectionManager.init /\
  metadata_registered
    (fst (connect healthy 1%nat (Some [("client", PStr "a")])
            ConnectionManager.init)).
Proof.
  assert (H : metadata_registered ConnectionManager.init).
  { intros ws md. unfold ConnectionManager.init. cbn.
    rewrite lookup_empty. discriminate. }
  split; [exact H |].
  exact (proj1 (proj2 (metadata_only_for_registered healthy 1%nat
                         (Some [("client", PStr "a")]) PNone
                         ConnectionManager.init H))).
Defined.

(** X4, witness: the connection 3 joins and leaves the room [lobby]. *)
Lemma leave_room_undoes_join_room_witness :
  accept healthy 3%nat = None /\
  forall c,
    registered
      (room_connections
         (leave_room 3%nat "lobby"
            (fst (join_room healthy 3%nat "lobby" watched_manager))))
      "lobby" c
    = registered (room_connections watched_manager) "lobby" c.
Proof.
  assert (H : accept healthy 3%nat = None) by reflexivity.
  split; [exact H |].
  exact (proj1 (leave_room_undoes_join_room healthy 3%nat "lobby"
                  watched_manager H)).
Defined.

(** X5, witness: a second connection of [alice]; the first gets the
    confirmation too. *)
Lemma connect_user_confirms_to_all_witness :
  accept healthy 5%nat = None /\
  snd (fst (connect_user healthy 5%nat "alice" None "t1" watched_manager))
  = [(1%nat, connection_message "t1"); (5%nat, connection_message "t1")].
Proof.
  assert (H : accept healthy 5%nat = None) by reflexivity.
  split; [exact H |].
  destruct (connect_user_confirms_to_all healthy 5%nat "alice" None "t1"
              watched_manager H) as (_ & _ & _ & Hsent).
  exact Hsent.
Defined.

(** X6, witness: the user [bob], unknown so far, on a connection whose
    [accept()] raises. *)
Lemma connect_user_refused_leaves_empty_entry_witness :
  accept accepted_before 9%nat
  = Some (Exn "RuntimeError" "websocket.accept") /\
  total_users
    (fst (fst (connect_user accepted_before 9%nat "bob" None "t1"
                 watched_manager)))
  = S (total_users watched_manager).
Proof.
  assert (H : accept accepted_before 9%nat
              = Some (Exn "RuntimeError" "websocket.accept"))
    by reflexivity.
  split; [exact H |].
  destruct (connect_user_refused_leaves_empty_entry accepted_before 9%nat
              "bob" None "t1" watched_manager _ H)
    as (_ & _ & _ & _ & Hnew & _).
  destruct (Hnew eq_refl) as (_ & _ & Htotal). exact Htotal.
Defined.

(** X7, witness: the user [bob] on the connection 9, that cannot be
    reached. *)
Lemma disconnect_user_undoes_connect_user_witness :
  accept (failing_on [9%nat]) 9%nat = None /\
  user_connections watched_manager !! "bob" = None /\
  connection_users watched_manager !! 9%nat = None /\
  (9%nat ∉ heartbeat_tasks watched_manager) /\
  disconnect_user 9%nat
    (fst (fst (connect_user (failing_on [9%nat]) 9%nat "bob" None "t1"
                 watched_manager)))
  = watched_manager.
Proof.
  assert (H1 : accept (failing_on [9%nat]) 9%nat = None) by reflexivity.
  assert (H2 : user_connections watched_manager !! "bob" = None)
    by reflexivity.
  assert (H3 : connection_users watched_manager !! 9%nat = None)
    by reflexivity.
  assert (H4 : 9%nat ∉ heartbeat_tasks watched_manager).
  { intros Hin. vm_compute in Hin. discriminate Hin. }
  repeat (split; [assumption |]).
  exact (disconnect_user_undoes_connect_user (failing_on [9%nat]) 9%nat
           "bob" None "t1" watched_manager H1 H2 H3 H4).
Defined.

(** X10, witness: two categories for a text about a court. *)
Lemma classify_returns_a_listed_category_witness :
  ["business"; "legal"] <> [] /\
  dict_get (classify "The court and the judge" ["business"; "legal"])
    "primary_category" = Some (PStr "legal").
Proof.
  assert (H : ["business"; "legal"] <> []) by discriminate.
  split; [exact H |].
  destruct (classify_returns_a_listed_category "The court and the judge"
              ["business"; "legal"] H) as (primary & Hget & _).
  rewrite Hget. vm_compute in Hget. injection Hget as <-. reflexivity.
Defined.

(** X11, witness: the two most frequent words of a short text. *)
Lemma extract_keywords_by_falling_count_witness :
  tfidf plain_libs = None /\
  tokenize_text plain_libs "tea tea milk tea milk sugar"
  = Returned ["tea"; "tea"; "milk"; "tea"; "milk"; "sugar"] /\
  0 <= 2 /\
  (let items :=
     extract_keywords plain_libs "tea tea milk tea milk sugar" (PInt 2) in
   length items = 2%nat /\
   map keyword items = ["tea"; "milk"] /\
   map score items = [PInt 3; PInt 2]).
Proof.
  assert (H : tfidf plain_libs = None) by reflexivity.
  assert (Ht : tokenize_text plain_libs "tea tea milk tea milk sugar"
               = Returned ["tea"; "tea"; "milk"; "tea"; "milk"; "sugar"])
    by reflexivity.
  assert (Hn : 0 <= 2) by lia.
  split; [exact H |]. split; [exact Ht |]. split; [exact Hn |].
  destruct (extract_keywords_by_falling_count plain_libs
              "tea tea milk tea milk sugar" (PInt 2) H) as (_ & _ & _ & Hk).
  destruct (Hk _ 2 Ht eq_refl Hn) as (Hlen & _).
  cbn zeta. split; [exact Hlen |]. split; reflexivity.
Defined.

(** X14, witness: the text [abc] and the length given as a string. *)
Lemma generate_summary_with_string_length_witness :
  extract_sentences plain_libs "abc" = Returned ["abc"] /\
  exists e, generate_summary plain_libs "abc" (PStr "500") = Raised e.
Proof.
  assert (H : extract_sentences plain_libs "abc" = Returned ["abc"])
    by reflexivity.
  split; [exact H |].
  destruct (generate_summary_with_string_length plain_libs "abc" "500"
              "abc" [] H) as (e & He & _).
  exists e. exact He.
Defined.

(** X15, witness: two names, of which the second ends the text. *)
Lemma extract_entities_drops_the_last_witness :
  nlp_model capital_libs = None /\
  word_tokenize capital_libs "Ada met Grace"
  = Returned ["Ada"; "met"; "Grace"] /\
  length (extract_entities capital_libs "Ada met Grace") = 1%nat.
Proof.
  assert (H1 : nlp_model capital_libs = None) by reflexivity.
  assert (H2 : word_tokenize capital_libs "Ada met Grace"
               = Returned ["Ada"; "met"; "Grace"]) by reflexivity.
  split; [exact H1 |]. split; [exact H2 |].
  exact (extract_entities_drops_the_last capital_libs "Ada met Grace"
           ["Ada"; "met"; "Grace"]
           [("Ada", "NN"); ("met", "NN"); ("Grace", "NN")]
           [Subtree "PERSON" [("Ada", "NN")]; Leaf "met" "NN";
            Subtree "PERSON" [("Grace", "NN")]]
           H1 H2 eq_refl eq_refl).
Defined.

(** X18, witness: a job that failed, was started and completed again. *)
Lemma job_records_are_never_cleared_witness :
  let failed := ProcessingJob.fail_processing "boom" None 20 held_job in
  let again :=
    ProcessingJob.complete_processing None 40
      (ProcessingJob.start_processing (Some "worker-2") 30 failed) in
  rtc job_step failed again /\
  ProcessingJob.is_completed again = true /\
  is_Some (ProcessingJob.error_message again).
Proof.
  cbn zeta.
  assert (H : rtc job_step
                (ProcessingJob.fail_processing "boom" None 20 held_job)
                (ProcessingJob.complete_processing None 40
                   (ProcessingJob.start_processing (Some "worker-2") 30
                      (ProcessingJob.fail_processing "boom" None 20
                         held_job)))).
  { eapply rtc_l; [apply step_start_processing |].
    apply rtc_once. apply step_complete_processing. }
  split; [exact H |]. split; [reflexivity |].
  apply (proj1 (job_records_are_never_cleared _ _ H)).
  eexists. reflexivity.
Defined.

End MoreExamples.
